(** * Worktree init-script runner

    A shallow embedding of [apps/server/src/services/init-script-service.ts]:
    the shell resolver ([findGitBash], [getShellCommand]) and the script
    runner ([hasInitScriptRun], [runInitScript] and the listeners it
    registers on the spawned child process).

    The asynchronous code is written in a small state-and-exception monad
    over a [World]: the host (platform, file system probe, environment), the
    clock, the metadata store, and the chronological trace of the effects the
    runner performed (log lines, metadata reads and writes, published events,
    spawned processes). *)

From Stdlib Require Import ZArith String Ascii List DecimalString DecimalPos DecimalZ.
From stdpp Require Import base option list strings gmap.

Local Open Scope string_scope.
Local Open Scope Z_scope.

(** ** Data model *)

(** [initScriptStatus?: 'running' | 'success' | 'failed'] *)
Inductive InitScriptStatus := Running | Success | Failed.

(** The [pr] field is owned by other services; the runner only copies it. *)
Definition WorktreePRInfo := string.

(** The record kept per (project, branch).  [createdAt] is required by its
    type, every other field but [branch] is optional. *)
Record WorktreeMetadata := {
  branch : string;
  createdAt : string;
  pr : option WorktreePRInfo;
  initScriptRan : option bool;
  initScriptStatus : option InitScriptStatus;
  initScriptError : option string
}.

(** [InitScriptOptions]; the [emitter] is the single event bus of the model,
    its [emit] calls are recorded in the trace. *)
Record InitScriptOptions := {
  projectPath : string;
  worktreePath : string;
  branchName : string
}.

(** The exit code handed to the ['exit'] listener: [number | null]. *)
Definition ExitCode := option Z.

Inductive OutputType := Stdout | Stderr.

(** Events published on the emitter, with their payloads.  An optional
    payload field that the object literal does not mention is [None]; the
    [exitCode] of a completion is [Some None] when the field is present and
    holds [null]. *)
Inductive Event :=
| InitStarted (project worktree br : string)
| InitOutput (project br : string) (type : OutputType) (content : string)
| InitCompleted (project worktree br : string) (success : bool)
    (exitCode : option ExitCode) (error : option string).

Record ShellCommand := { shell : string; args : list string }.

(** The call [spawn(command, args, { cwd, env, stdio })]; [envAdditions] are
    the entries layered over [process.env]. *)
Record ChildProcess := {
  command : string;
  spawnArgs : list string;
  cwd : string;
  envAdditions : list (string * string);
  stdio : list string
}.

Inductive LogLevel := LogDebug | LogInfo | LogError.

Inductive Effect :=
| Log (level : LogLevel) (msg : string)
| MetaRead (project br : string)
| MetaWrite (project br : string) (metadata : WorktreeMetadata)
| Emit (e : Event)
| Spawn (child : ChildProcess)
| UnhandledRejection (reason : string).

(** What the spawned process does, as seen by the listeners: the chunks
    of its two pipes, its ['exit'] and its ['error']. *)
Inductive ChildEvent :=
| StdoutData (content : string)
| StderrData (content : string)
| Exit (code : ExitCode)
| ChildError (message : string).

(** ** The host *)

(** [process.platform], [fs.existsSync], [path.join] and [process.env].
    [spawnError c] is the error that [child_process.spawn] throws
    synchronously for the call [c] on this host, if it throws: an invalid
    argument (a NUL byte in [cwd], in an argument or in the environment)
    or a failure of the operating system that node does not report
    through the ['error'] event of the child. *)
Record Host := {
  platform : string;
  existsSync : string → bool;
  path_join : list string → string;
  env : string → option string;
  spawnError : ChildProcess → option string
}.

(** ** The metadata store

    [readWorktreeMetadata] and [writeWorktreeMetadata] come from
    [lib/worktree-metadata.js], which is an external collaborator of the
    runner: they are an interface here.  A write either goes through or
    fails with an I/O error, which an [await] turns into an exception. *)

Inductive IOResult (A : Type) :=
| IOOk (a : A)
| IOError (msg : string).
Arguments IOOk {A} a.
Arguments IOError {A} msg.

Class MetadataStore (S : Type) := {
  readWorktreeMetadata : S → string → string → option WorktreeMetadata;
  writeWorktreeMetadata : S → string → string → WorktreeMetadata → IOResult S
}.

(** Modelled from the spec: the metadata store of [lib/worktree-metadata.js]
    is keyed by (projectPath, branch); read returns the existing record or
    absent; write performs a full-record overwrite. *)
#[export] Instance gmap_store : MetadataStore (gmap (string * string) WorktreeMetadata) := {
  readWorktreeMetadata s p b := s !! (p, b);
  writeWorktreeMetadata s p b m := IOOk (<[(p, b) := m]> s)
}.

(** Modelled from the spec: a metadata store whose [write] answers
    [IOError] once its quota of writes is used up, for instance a disk
    that fills up. *)
Record QuotaStore := {
  q_records : gmap (string * string) WorktreeMetadata;
  q_left : nat
}.

#[export] Instance quota_store : MetadataStore QuotaStore := {
  readWorktreeMetadata s p b := q_records s !! (p, b);
  writeWorktreeMetadata s p b m :=
    match q_left s with
    | O => IOError "ENOSPC: no space left on device"
    | Datatypes.S n => IOOk {| q_records := <[(p, b) := m]> (q_records s); q_left := n |}
    end
}.

(** Modelled from the spec: a metadata store whose [write] answers
    [IOError], for instance a read-only state directory. *)
Record ReadOnlyStore := { ro_records : gmap (string * string) WorktreeMetadata }.

#[export] Instance readonly_store : MetadataStore ReadOnlyStore := {
  readWorktreeMetadata s p b := ro_records s !! (p, b);
  writeWorktreeMetadata s p b m := IOError "EACCES: permission denied"
}.

(** ** Strings *)

Definition dquote : string := String (ascii_of_nat 34) EmptyString.

(** [Number.prototype.toString] on an integer; exit codes are small, so
    the decimal numeral is what JavaScript prints. *)
Definition numberToString (n : Z) : string := NilZero.string_of_int (Z.to_int n).

(** [`${code}`] for [code : number | null]. *)
Definition exitCodeToString (code : ExitCode) : string :=
  match code with
  | Some n => numberToString n
  | None => "null"
  end.

(** [s || fallback] on strings: the empty string is falsy. *)
Definition orElse (s : option string) (fallback : string) : string :=
  match s with
  | Some EmptyString | None => fallback
  | Some v => v
  end.

(** ** Shell resolver *)

Definition GIT_BASH_PATHS (h : Host) : list string :=
  [ "C:\Program Files\Git\bin\bash.exe";
    "C:\Program Files (x86)\Git\bin\bash.exe";
    path_join h [orElse (env h "LOCALAPPDATA") ""; "Programs"; "Git"; "bin"; "bash.exe"];
    path_join h [orElse (env h "USERPROFILE") ""; "scoop"; "apps"; "git"; "current"; "bin"; "bash.exe"] ].

Definition findGitBash (h : Host) : option string :=
  if negb (String.eqb (platform h) "win32") then None
  else List.find (existsSync h) (GIT_BASH_PATHS h).

Definition getShellCommand (h : Host) : option ShellCommand :=
  if String.eqb (platform h) "win32" then
    match findGitBash h with
    | None | Some EmptyString => None
    | Some gitBash => Some {| shell := gitBash; args := [] |}
    end
  else if existsSync h "/bin/bash" then Some {| shell := "/bin/bash"; args := [] |}
  else if existsSync h "/bin/sh" then Some {| shell := "/bin/sh"; args := [] |}
  else None.

Definition getInitScriptPath (h : Host) (project : string) : string :=
  path_join h [project; ".automaker"; "worktree-init.sh"].

(** ** The runner *)

Inductive Completion (A : Type) :=
| Normal (a : A)
| Thrown (msg : string).
Arguments Normal {A} a.
Arguments Thrown {A} msg.

Section Runner.
Context {Store : Type} `{MetadataStore Store}.

(** [now] is what [new Date().toISOString()] answers in this world.  A
    listener fires in a later world; what is proved of a listener holds
    for every world, whatever its clock and the content of its store. *)
Record World := {
  host : Host;
  now : string;
  store : Store;
  trace : list Effect
}.

Definition M (A : Type) : Type := World → Completion A * World.

#[export] Instance M_ret : MRet M := λ A a w, (Normal a, w).
#[export] Instance M_bind : MBind M := λ A B f m w,
  match m w with
  | (Normal a, w') => f a w'
  | (Thrown e, w') => (Thrown e, w')
  end.

Definition record (e : Effect) (w : World) : World :=
  {| host := host w; now := now w; store := store w; trace := trace w ++ [e] |}.

Definition getHost : M Host := λ w, (Normal (host w), w).
Definition newDateISO : M string := λ w, (Normal (now w), w).
Definition logger (level : LogLevel) (msg : string) : M unit :=
  λ w, (Normal (), record (Log level msg) w).
Definition emit (e : Event) : M unit := λ w, (Normal (), record (Emit e) w).
Definition spawn (c : ChildProcess) : M ChildProcess :=
  λ w, match spawnError (host w) c with
       | Some e => (Thrown e, w)
       | None => (Normal c, record (Spawn c) w)
       end.

Definition readMeta (project br : string) : M (option WorktreeMetadata) :=
  λ w, (Normal (readWorktreeMetadata (store w) project br), record (MetaRead project br) w).

Definition writeMeta (project br : string) (m : WorktreeMetadata) : M unit :=
  λ w, match writeWorktreeMetadata (store w) project br m with
       | IOOk s' =>
           (Normal (),
            {| host := host w; now := now w; store := s';
               trace := trace w ++ [MetaWrite project br m] |})
       | IOError msg => (Thrown msg, record (MetaWrite project br m) w)
       end.

(** [metadata?.initScriptRan === true] *)
Definition hasInitScriptRun (project br : string) : M bool :=
  metadata ← readMeta project br;
  mret (match metadata with
        | Some m => match initScriptRan m with Some true => true | _ => false end
        | None => false
        end).

Definition spawnEnv (options : InitScriptOptions) : list (string * string) :=
  [ ("AUTOMAKER_PROJECT_PATH", projectPath options);
    ("AUTOMAKER_WORKTREE_PATH", worktreePath options);
    ("AUTOMAKER_BRANCH", branchName options);
    ("FORCE_COLOR", "1");
    ("npm_config_color", "always");
    ("CLICOLOR_FORCE", "1");
    ("GIT_TERMINAL_PROMPT", "0") ].

Definition noShellError (h : Host) : string :=
  if String.eqb (platform h) "win32"
  then "Git Bash not found. Please install Git for Windows to run init scripts."
  else "No shell found (/bin/bash or /bin/sh)".

(** The promise of [runInitScript] resolves to [void]; the model hands
    back the child on which the listeners were registered, [None] when
    the function returned before spawning. *)
Definition runInitScript (options : InitScriptOptions) : M (option ChildProcess) :=
  let project := projectPath options in
  let worktree := worktreePath options in
  let br := branchName options in
  h ← getHost;
  let scriptPath := getInitScriptPath h project in
  if negb (existsSync h scriptPath) then
    logger LogDebug ("No init script found at " +:+ scriptPath);;
    mret None
  else
    alreadyRan ← hasInitScriptRun project br;
    if alreadyRan : bool then
      logger LogInfo ("Init script already ran for branch " +:+ dquote +:+ br
                        +:+ dquote +:+ ", skipping");;
      mret None
    else
      match getShellCommand h with
      | None =>
          let error := noShellError h in
          logger LogError error;;
          t ← newDateISO;
          writeMeta project br
            {| branch := br; createdAt := t; pr := None;
               initScriptRan := Some true; initScriptStatus := Some Failed;
               initScriptError := Some error |};;
          emit (InitCompleted project worktree br false None (Some error));;
          mret None
      | Some shellCmd =>
          logger LogInfo ("Running init script for branch " +:+ dquote +:+ br
                            +:+ dquote +:+ " in " +:+ worktree);;
          existingMetadata ← readMeta project br;
          t ← newDateISO;
          writeMeta project br
            {| branch := br;
               createdAt := orElse (createdAt <$> existingMetadata) t;
               pr := existingMetadata ≫= pr;
               initScriptRan := Some false; initScriptStatus := Some Running;
               initScriptError := None |};;
          emit (InitStarted project worktree br);;
          child ← spawn {| command := shell shellCmd;
                           spawnArgs := args shellCmd ++ [scriptPath];
                           cwd := worktree;
                           envAdditions := spawnEnv options;
                           stdio := ["ignore"; "pipe"; "pipe"] |};
          mret (Some child)
      end.

(** *** Listeners registered on the child *)

Definition onStdout (options : InitScriptOptions) (content : string) : M unit :=
  emit (InitOutput (projectPath options) (branchName options) Stdout content).

Definition onStderr (options : InitScriptOptions) (content : string) : M unit :=
  emit (InitOutput (projectPath options) (branchName options) Stderr content).

Definition statusName (s : InitScriptStatus) : string :=
  match s with Running => "running" | Success => "success" | Failed => "failed" end.

Definition onExit (options : InitScriptOptions) (code : ExitCode) : M unit :=
  let project := projectPath options in
  let br := branchName options in
  let success := match code with Some 0 => true | _ => false end in
  let status := if success then Success else Failed in
  logger LogInfo ("Init script for branch " +:+ dquote +:+ br +:+ dquote +:+ " "
                    +:+ statusName status +:+ " with exit code "
                    +:+ exitCodeToString code);;
  metadata ← readMeta project br;
  t ← newDateISO;
  writeMeta project br
    {| branch := br;
       createdAt := orElse (createdAt <$> metadata) t;
       pr := metadata ≫= pr;
       initScriptRan := Some true;
       initScriptStatus := Some status;
       initScriptError :=
         if success then None else Some ("Exit code: " +:+ exitCodeToString code) |};;
  emit (InitCompleted project (worktreePath options) br success (Some code) None).

Definition onError (options : InitScriptOptions) (message : string) : M unit :=
  let project := projectPath options in
  let br := branchName options in
  logger LogError ("Init script error for branch " +:+ dquote +:+ br +:+ dquote
                     +:+ ": " +:+ message);;
  metadata ← readMeta project br;
  t ← newDateISO;
  writeMeta project br
    {| branch := br;
       createdAt := orElse (createdAt <$> metadata) t;
       pr := metadata ≫= pr;
       initScriptRan := Some true;
       initScriptStatus := Some Failed;
       initScriptError := Some message |};;
  emit (InitCompleted project (worktreePath options) br false None (Some message)).

Definition listener (options : InitScriptOptions) (ev : ChildEvent) : M unit :=
  match ev with
  | StdoutData content => onStdout options content
  | StderrData content => onStderr options content
  | Exit code => onExit options code
  | ChildError message => onError options message
  end.

(** Nobody awaits the promise of an [async] listener: when it rejects,
    the rejection is unhandled and the event loop goes on. *)
Definition dispatch (options : InitScriptOptions) (w : World) (ev : ChildEvent) : World :=
  match listener options ev w with
  | (Normal _, w') => w'
  | (Thrown e, w') => record (UnhandledRejection e) w'
  end.

Definition deliver (options : InitScriptOptions) (evs : list ChildEvent) (w : World) : World :=
  fold_left (dispatch options) evs w.

End Runner.

Arguments World : clear implicits.
Arguments M : clear implicits.

(** ** Observing a trace *)

Definition metadataReads (t : list Effect) : list (string * string) :=
  omap (λ e, match e with MetaRead p b => Some (p, b) | _ => None end) t.

Definition metadataWrites (t : list Effect) : list WorktreeMetadata :=
  omap (λ e, match e with MetaWrite _ _ m => Some m | _ => None end) t.

Definition published (t : list Effect) : list Event :=
  omap (λ e, match e with Emit ev => Some ev | _ => None end) t.

Definition spawned (t : list Effect) : list ChildProcess :=
  omap (λ e, match e with Spawn c => Some c | _ => None end) t.

Definition rejections (t : list Effect) : list string :=
  omap (λ e, match e with UnhandledRejection r => Some r | _ => None end) t.

Definition isOutput (ev : Event) : bool :=
  match ev with InitOutput _ _ _ _ => true | _ => false end.

Definition isCompletion (ev : Event) : bool :=
  match ev with InitCompleted _ _ _ _ _ _ => true | _ => false end.

(** A status is terminal when it is [success] or [failed]. *)
Definition terminalStatus (s : option InitScriptStatus) : bool :=
  match s with
  | Some Success | Some Failed => true
  | Some Running | None => false
  end.


(** The invariant of the data model on one record. *)
Definition wellFormed (m : WorktreeMetadata) : Prop :=
  (initScriptRan m = Some true ↔ terminalStatus (initScriptStatus m) = true)
  ∧ (is_Some (initScriptError m) → initScriptStatus m = Some Failed).

(** A stretch of the trace without metadata write, spawn or event. *)
Definition silent (t : list Effect) : Prop :=
  metadataWrites t = [] ∧ spawned t = [] ∧ published t = [].

(** The effects performed between two worlds of one execution. *)
Definition since {Store : Type} (w w' : World Store) : list Effect :=
  drop (length (trace w)) (trace w').

(** The world [w] once the effects [d] happened and the store became [s]. *)
Definition after {Store : Type} (w : World Store) (s : Store) (d : list Effect)
  : World Store :=
  {| host := host w; now := now w; store := s; trace := trace w ++ d |}.


(** The log lines of the runner. *)
Definition noScriptLine (scriptPath : string) : string :=
  "No init script found at " +:+ scriptPath.

Definition skippingLine (br : string) : string :=
  "Init script already ran for branch " +:+ dquote +:+ br +:+ dquote +:+ ", skipping".

Definition runningLine (br worktree : string) : string :=
  "Running init script for branch " +:+ dquote +:+ br +:+ dquote +:+ " in " +:+ worktree.

Definition exitLine (br : string) (code : ExitCode) : string :=
  "Init script for branch " +:+ dquote +:+ br +:+ dquote +:+ " "
    +:+ statusName (match code with Some 0 => Success | _ => Failed end)
    +:+ " with exit code " +:+ exitCodeToString code.

Definition errorLine (br message : string) : string :=
  "Init script error for branch " +:+ dquote +:+ br +:+ dquote +:+ ": " +:+ message.

(** The idempotency gate, as a function of the record read. *)
Definition gate (existing : option WorktreeMetadata) : bool :=
  match existing with
  | Some m => match initScriptRan m with Some true => true | _ => false end
  | None => false
  end.

(** The three shapes of record the runner writes. *)
Definition preflightRecord (h : Host) (br t : string) : WorktreeMetadata :=
  {| branch := br; createdAt := t; pr := None;
     initScriptRan := Some true; initScriptStatus := Some Failed;
     initScriptError := Some (noShellError h) |}.

Definition runningRecord (br : string) (existing : option WorktreeMetadata) (t : string)
  : WorktreeMetadata :=
  {| branch := br; createdAt := orElse (createdAt <$> existing) t;
     pr := existing ≫= pr;
     initScriptRan := Some false; initScriptStatus := Some Running;
     initScriptError := None |}.

Definition exitSuccess (code : ExitCode) : bool :=
  match code with Some 0 => true | _ => false end.

Definition exitRecord (br : string) (existing : option WorktreeMetadata) (t : string)
  (code : ExitCode) : WorktreeMetadata :=
  {| branch := br; createdAt := orElse (createdAt <$> existing) t;
     pr := existing ≫= pr;
     initScriptRan := Some true;
     initScriptStatus := Some (if exitSuccess code then Success else Failed);
     initScriptError :=
       if exitSuccess code then None
       else Some ("Exit code: " +:+ exitCodeToString code) |}.

Definition errorRecord (br : string) (existing : option WorktreeMetadata) (t : string)
  (message : string) : WorktreeMetadata :=
  {| branch := br; createdAt := orElse (createdAt <$> existing) t;
     pr := existing ≫= pr;
     initScriptRan := Some true; initScriptStatus := Some Failed;
     initScriptError := Some message |}.

(** The child that [runInitScript] spawns with a resolved shell. *)
Definition childOf (h : Host) (options : InitScriptOptions) (sh : ShellCommand)
  : ChildProcess :=
  {| command := shell sh;
     spawnArgs := args sh ++ [getInitScriptPath h (projectPath options)];
     cwd := worktreePath options;
     envAdditions := spawnEnv options;
     stdio := ["ignore"; "pipe"; "pipe"] |}.

(** The behaviour of a child process: chunks of output, then one end.
    The runner neither kills the child nor sends to it, so the child ends
    with exactly one of ['exit'] and ['error'] (the latter when the shell
    could not be started). *)
Inductive Ending :=
| Exited (code : ExitCode)
| Errored (message : string).

Definition outputOf (c : OutputType * string) : ChildEvent :=
  match c.1 with
  | Stdout => StdoutData c.2
  | Stderr => StderrData c.2
  end.

Definition endOf (e : Ending) : ChildEvent :=
  match e with
  | Exited code => Exit code
  | Errored message => ChildError message
  end.

(** The event published for one chunk of output. *)
Definition outputEvent (options : InitScriptOptions) (c : OutputType * string) : Event :=
  InitOutput (projectPath options) (branchName options) c.1 c.2.


Definition completions (t : list Effect) : list Event :=
  List.filter isCompletion (published t).

Definition outputs (t : list Effect) : list Event :=
  List.filter isOutput (published t).

(** One invocation of [runInitScript] followed, when a child was spawned,
    by the events of that child. *)
Definition session {Store : Type} `{MetadataStore Store}
  (options : InitScriptOptions) (evs : list ChildEvent) (w : World Store) : World Store :=
  match runInitScript options w with
  | (Normal (Some _), w') => deliver options evs w'
  | (_, w') => w'
  end.

(** [n] invocations of [runInitScript], one after the other. *)
Fixpoint runRepeatedly {Store : Type} `{MetadataStore Store}
  (n : nat) (options : InitScriptOptions) : M Store unit :=
  match n with
  | O => mret ()
  | Datatypes.S n' => runInitScript options;; runRepeatedly n' options
  end.

(** ** Concrete hosts and stores used to exercise the model *)

(** [path.join] on segments that need no normalising (no [.] or [..],
    no doubled or trailing separator): empty segments are skipped, the
    others are joined by the separator of the platform, and nothing at
    all gives [.]. *)
Definition joinSegments (sep : string) (parts : list string) : string :=
  match List.filter (λ part, negb (String.eqb part "")) parts with
  | [] => "."
  | kept => String.concat sep kept
  end.

(** A host of the given platform on which exactly the given files exist,
    with an empty environment and a [spawn] that does not throw. *)
Definition hostWith (plat : string) (files : list string) : Host :=
  {| platform := plat;
     existsSync := λ p, existsb (String.eqb p) files;
     path_join := joinSegments (if String.eqb plat "win32" then "\" else "/");
     env := λ _, None;
     spawnError := λ _, None |}.


Definition featureX : InitScriptOptions :=
  {| projectPath := "/p"; worktreePath := "/w"; branchName := "feature-x" |}.

Definition scriptP : string := "/p/.automaker/worktree-init.sh".

Definition worldOf {Store : Type} (h : Host) (s : Store) : World Store :=
  {| host := h; now := "2026-01-01T00:00:00.000Z"; store := s; trace := [] |}.

Definition emptyStore : gmap (string * string) WorktreeMetadata := ∅.

Definition prRecord (ran : option bool) (st : option InitScriptStatus)
  : WorktreeMetadata :=
  {| branch := "feature-x"; createdAt := "2025-06-30T12:00:00.000Z";
     pr := Some "123"; initScriptRan := ran; initScriptStatus := st;
     initScriptError := None |}.

Definition storeWith (m : WorktreeMetadata) : gmap (string * string) WorktreeMetadata :=
  {[ ("/p", "feature-x") := m ]}.

(** A Linux host with the script of [/p] and the given shells. *)
Definition linuxWith (shells : list string) : Host :=
  hostWith "linux" (scriptP :: shells).

(** A world whose store is read-only and holds no record. *)
Definition readOnlyWorld : World ReadOnlyStore :=
  worldOf (linuxWith ["/bin/bash"]) {| ro_records := ∅ |}.



Definition shCommand : ShellCommand := {| shell := "/bin/sh"; args := [] |}.

(** ** Further observations on the runner *)

(** The chunks of output among the events of a child, in arrival order. *)
Definition chunksOf (evs : list ChildEvent) : list (OutputType * string) :=
  omap (λ ev, match ev with
              | StdoutData content => Some (Stdout, content)
              | StderrData content => Some (Stderr, content)
              | Exit _ | ChildError _ => None
              end) evs.

(** Project and branch carried by the payload of an event. *)
Definition eventKey (ev : Event) : string * string :=
  match ev with
  | InitStarted p _ b => (p, b)
  | InitOutput p b _ _ => (p, b)
  | InitCompleted p _ b _ _ _ => (p, b)
  end.

(** An effect that concerns only the (project, branch) of the invocation:
    store accesses under that key, records that name that branch, events
    whose payload carries that project and branch, a child started in the
    worktree of the invocation. *)
Definition ownEffect (options : InitScriptOptions) (e : Effect) : Prop :=
  match e with
  | MetaRead p b => p = projectPath options ∧ b = branchName options
  | MetaWrite p b m =>
      p = projectPath options ∧ b = branchName options ∧ branch m = branchName options
  | Emit ev => eventKey ev = (projectPath options, branchName options)
  | Spawn c => cwd c = worktreePath options
  | Log _ _ | UnhandledRejection _ => True
  end.

(** The record the listeners write when the process ends. *)
Definition endRecord (br : string) (existing : option WorktreeMetadata) (t : string)
  (fin : Ending) : WorktreeMetadata :=
  match fin with
  | Exited code => exitRecord br existing t code
  | Errored message => errorRecord br existing t message
  end.


Definition writesAreLocal (Store : Type) `{MetadataStore Store} : Prop :=
  ∀ (s s' : Store) p b m p' b',
    writeWorktreeMetadata s p b m = IOOk s' → (p', b') ≠ (p, b) →
    readWorktreeMetadata s' p' b' = readWorktreeMetadata s p' b'.

(** A Windows host on which the given files exist. *)
Definition windowsWith (files : list string) : Host := hostWith "win32" files.

(** ** Init-script routes

    The three handlers that read, write and delete
    [<projectPath>/.automaker/worktree-init.sh] over HTTP.  [secureFs],
    [getErrorMessage] and [logError] live outside this file: the file
    system is an interface, the two helpers are recorded as they are
    called. *)

Module Routes.

(** A value found in a JSON request body; [JsUndefined] is a missing
    field, [JsObject] any object or array.  Numbers are integers here: a
    fraction behaves like any other non-zero number. *)
Inductive JsValue :=
| JsUndefined
| JsNull
| JsBool (b : bool)
| JsNumber (n : Z)
| JsString (s : string)
| JsObject.

(** [!v] is [negb (truthy v)]. *)
Definition truthy (v : JsValue) : bool :=
  match v with
  | JsUndefined | JsNull => false
  | JsBool b => b
  | JsNumber n => negb (n =? 0)
  | JsString s => negb (String.eqb s "")
  | JsObject => true
  end.

(** [req.body], with the two fields the handlers destructure; [None] is
    a request without a parsed body. *)
Record Body := { body_projectPath : JsValue; body_content : JsValue }.
Record Request := { body : option Body }.

(** The JSON sent back; a field the object literal does not mention is
    [None]. *)
Record Json := {
  success : bool;
  exists_ : option bool;
  content : option string;
  path : option string;
  error : option string
}.

Record Response := { status : nat; json : Json }.

Inductive Action :=
| ReadFile (file : string)
| Mkdir (dir : string)
| WriteFile (file data : string)
| Rm (file : string)
| LogInfo (msg : string)
| LogError (err context : string)
| Respond (r : Response).

(** [secureFs]: [readFile(path, 'utf-8')], [mkdir(dir, { recursive: true })],
    [writeFile(path, content, 'utf-8')] and [rm(path, { force: true })];
    each one resolves or rejects. *)
Class SecureFs (F : Type) := {
  readFile : F → string → IOResult string;
  mkdir : F → string → IOResult F;
  writeFile : F → string → string → IOResult F;
  rm : F → string → IOResult F
}.

(** What the handlers take from their surroundings: [path.join] (in the
    host), [path.dirname], [getErrorMessage], and the message of the
    [TypeError] that [path.join] throws on an argument that is not a
    string. *)
Record Env := {
  env_host : Host;
  dirname : string → string;
  getErrorMessage : string → string;
  invalidPathArgument : JsValue → string
}.

Definition INIT_SCRIPT_FILENAME : string := "worktree-init.sh".

Section Handlers.
Context {F : Type} `{SecureFs F}.

Record State := { fs : F; actions : list Action }.

Definition Handler (A : Type) : Type := State → Completion A * State.

#[global] Instance Handler_ret : MRet Handler := λ A a st, (Normal a, st).
#[global] Instance Handler_bind : MBind Handler := λ A B f m st,
  match m st with
  | (Normal a, st') => f a st'
  | (Thrown e, st') => (Thrown e, st')
  end.

Definition throw {A : Type} (e : string) : Handler A := λ st, (Thrown e, st).

(** [try { body } catch (error) { handler }] *)
Definition tryCatch {A : Type} (body : Handler A) (handler : string → Handler A) : Handler A :=
  λ st, match body st with
        | (Normal a, st') => (Normal a, st')
        | (Thrown e, st') => handler e st'
        end.

Definition act (a : Action) : Handler unit :=
  λ st, (Normal (), {| fs := fs st; actions := actions st ++ [a] |}).

Definition fsRead (file : string) : Handler string :=
  λ st, let st' := {| fs := fs st; actions := actions st ++ [ReadFile file] |} in
        match readFile (fs st) file with
        | IOOk data => (Normal data, st')
        | IOError e => (Thrown e, st')
        end.

Definition fsUpdate (a : Action) (op : F → IOResult F) : Handler unit :=
  λ st, match op (fs st) with
        | IOOk f' => (Normal (), {| fs := f'; actions := actions st ++ [a] |})
        | IOError e => (Thrown e, {| fs := fs st; actions := actions st ++ [a] |})
        end.

Definition fsMkdir (dir : string) : Handler unit := fsUpdate (Mkdir dir) (λ f, mkdir f dir).
Definition fsWriteFile (file data : string) : Handler unit :=
  fsUpdate (WriteFile file data) (λ f, writeFile f file data).
Definition fsRm (file : string) : Handler unit := fsUpdate (Rm file) (λ f, rm f file).

(** [res.status(code).json(j)]; [res.json(j)] answers with status 200. *)
Definition respond (code : nat) (j : Json) : Handler unit :=
  act (Respond {| status := code; json := j |}).

Definition failure (message : string) : Json :=
  {| success := false; exists_ := None; content := None; path := None;
     error := Some message |}.

(** [const { projectPath, content } = req.body]: destructuring an absent
    body throws a [TypeError]. *)
Definition destructure (req : Request) : Handler Body :=
  match body req with
  | Some b => mret b
  | None => throw "Cannot destructure property 'projectPath' of 'req.body' as it is undefined."
  end.

(** [path.join(projectPath, '.automaker', INIT_SCRIPT_FILENAME)] on the
    value the request carries. *)
Definition getInitScriptPath (env : Env) (projectPath : JsValue) : Handler string :=
  match projectPath with
  | JsString s => mret (path_join (env_host env) [s; ".automaker"; INIT_SCRIPT_FILENAME])
  | v => throw (invalidPathArgument env v)
  end.

Definition createGetInitScriptHandler (env : Env) (req : Request) : Handler unit :=
  tryCatch
    (b ← destructure req;
     let projectPath := body_projectPath b in
     if negb (truthy projectPath) then
       respond 400 (failure "projectPath is required")
     else
       scriptPath ← getInitScriptPath env projectPath;
       tryCatch
         (data ← fsRead scriptPath;
          respond 200 {| success := true; exists_ := Some true; content := Some data;
                         path := Some scriptPath; error := None |})
         (λ _,
          respond 200 {| success := true; exists_ := Some false; content := Some "";
                         path := Some scriptPath; error := None |}))
    (λ error,
     act (LogError error "Read init script failed");;
     respond 500 (failure (getErrorMessage env error))).

Definition createPutInitScriptHandler (env : Env) (req : Request) : Handler unit :=
  tryCatch
    (b ← destructure req;
     let projectPath := body_projectPath b in
     if negb (truthy projectPath) then
       respond 400 (failure "projectPath is required")
     else
       match body_content b with
       | JsString data =>
           scriptPath ← getInitScriptPath env projectPath;
           let automakerDir := dirname env scriptPath in
           fsMkdir automakerDir;;
           fsWriteFile scriptPath data;;
           act (LogInfo ("Wrote init script to " +:+ scriptPath));;
           respond 200 {| success := true; exists_ := None; content := None;
                          path := Some scriptPath; error := None |}
       | _ => respond 400 (failure "content must be a string")
       end)
    (λ error,
     act (LogError error "Write init script failed");;
     respond 500 (failure (getErrorMessage env error))).

Definition createDeleteInitScriptHandler (env : Env) (req : Request) : Handler unit :=
  let ok := {| success := true; exists_ := None; content := None; path := None;
               error := None |} in
  tryCatch
    (b ← destructure req;
     let projectPath := body_projectPath b in
     if negb (truthy projectPath) then
       respond 400 (failure "projectPath is required")
     else
       scriptPath ← getInitScriptPath env projectPath;
       tryCatch
         (fsRm scriptPath;;
          act (LogInfo ("Deleted init script at " +:+ scriptPath));;
          respond 200 ok)
         (λ _, respond 200 ok))
    (λ error,
     act (LogError error "Delete init script failed");;
     respond 500 (failure (getErrorMessage env error))).

(** The state reached by a handler from a file system, and what it did. *)
Definition serve (handler : Handler unit) (f : F) : State :=
  (handler {| fs := f; actions := [] |}).2.

End Handlers.

Arguments State : clear implicits.
Arguments Handler : clear implicits.

Definition responses (l : list Action) : list Response :=
  omap (λ a, match a with Respond r => Some r | _ => None end) l.

(** The actions that reach the file system. *)
Definition isFsAction (a : Action) : bool :=
  match a with
  | ReadFile _ | Mkdir _ | WriteFile _ _ | Rm _ => true
  | LogInfo _ | LogError _ _ | Respond _ => false
  end.

(** The script path of the routes for a project path that is a string. *)
Definition scriptPathOf (env : Env) (project : string) : string :=
  path_join (env_host env) [project; ".automaker"; INIT_SCRIPT_FILENAME].

Definition requestOf (projectPath data : JsValue) : Request :=
  {| body := Some {| body_projectPath := projectPath; body_content := data |} |}.

(** An in-memory file system to exercise the handlers: files by path,
    directories implicit, [rm] with [force] silent on a missing file. *)
#[global] Instance memory_fs : SecureFs (gmap string string) := {
  readFile f file := match f !! file with
                     | Some data => IOOk data
                     | None => IOError "ENOENT: no such file or directory"
                     end;
  mkdir f dir := IOOk f;
  writeFile f file data := IOOk (<[file := data]> f);
  rm f file := IOOk (delete file f)
}.

(** A file system that refuses every operation. *)
Record DeniedFs := { denied : unit }.

#[global] Instance denied_fs : SecureFs DeniedFs := {
  readFile f file := IOError "Path not allowed";
  mkdir f dir := IOError "Path not allowed";
  writeFile f file data := IOError "Path not allowed";
  rm f file := IOError "Path not allowed"
}.

Definition testEnv : Env :=
  {| env_host := hostWith "linux" [];
     dirname := λ _, "/p/.automaker";
     getErrorMessage := λ e, e;
     invalidPathArgument := λ _, "The path argument must be of type string" |}.

End Routes.

(** ** Login view: session check and form submission

    [verifySession] and [login] are calls to the server: what they answer
    is given to the model; what the view does with the answers is a list
    of actions, in order. *)

Module Login.

(** [verifySession()] resolves to [true], resolves to [false], or
    rejects (network error, server not ready). *)
Inductive VerifyOutcome := SessionValid | SessionInvalid | VerifyFailed.

(** [login(key)] resolves to [{ success, error? }] or rejects. *)
Inductive LoginOutcome :=
| LoginResult (success : bool) (error : option string)
| LoginFailed.

Inductive Action :=
| VerifySession
| Delay (ms : Z)
| SetAuthState (isAuthenticated authChecked : bool)
| Navigate (to : string)
| SetIsCheckingSession (v : bool)
| PreventDefault
| SetError (e : option string)
| SetIsLoading (v : bool)
| CallLogin (apiKey : string).

Definition maxRetries : nat := 5.
Definition baseDelay : Z := 500.

(** [setupComplete ? '/' : '/setup'] *)
Definition destination (setupComplete : bool) : string :=
  if setupComplete then "/" else "/setup".

(** The [for] loop of [checkExistingSession] from iteration [attempt] on,
    with [remaining] iterations before [attempt] reaches [maxRetries];
    [verify i] is what the call of iteration [i] answers.  The action
    after the loop is [setIsCheckingSession(false)]. *)
Fixpoint attemptsFrom (verify : nat → VerifyOutcome) (setupComplete : bool)
  (remaining attempt : nat) : list Action :=
  match remaining with
  | O => [SetIsCheckingSession false]
  | Datatypes.S remaining' =>
      VerifySession ::
      match verify attempt with
      | SessionValid =>
          [SetAuthState true true; Navigate (destination setupComplete)]
      | SessionInvalid => [SetIsCheckingSession false]
      | VerifyFailed =>
          (if (attempt <? maxRetries - 1)%nat
           then [Delay (baseDelay * 2 ^ Z.of_nat attempt)]
           else [])
          ++ attemptsFrom verify setupComplete remaining' (Datatypes.S attempt)
      end
  end.

Definition checkExistingSession (verify : nat → VerifyOutcome) (setupComplete : bool)
  : list Action :=
  attemptsFrom verify setupComplete maxRetries 0.

(** The effect that runs the check, guarded by [sessionCheckRef]: it
    answers the new value of the ref and what was done. *)
Definition sessionCheckEffect (sessionCheckRef : bool) (verify : nat → VerifyOutcome)
  (setupComplete : bool) : bool * list Action :=
  if sessionCheckRef then (sessionCheckRef, [])
  else (true, checkExistingSession verify setupComplete).

(** [handleSubmit]; [trim] is [String.prototype.trim]. *)
Definition handleSubmit (trim : string → string) (login : string → LoginOutcome)
  (setupComplete : bool) (apiKey : string) : list Action :=
  [PreventDefault; SetError None; SetIsLoading true; CallLogin (trim apiKey)]
  ++ match login (trim apiKey) with
     | LoginResult true _ =>
         [SetAuthState true true; Navigate (destination setupComplete)]
     | LoginResult false error =>
         [SetError (Some (orElse error "Invalid API key"))]
     | LoginFailed => [SetError (Some "Failed to connect to server")]
     end
  ++ [SetIsLoading false].

(** Observations on a list of actions. *)
Definition verifications (l : list Action) : nat :=
  length (List.filter (λ a, match a with VerifySession => true | _ => false end) l).

Definition delays (l : list Action) : list Z :=
  omap (λ a, match a with Delay ms => Some ms | _ => None end) l.

Definition navigations (l : list Action) : list string :=
  omap (λ a, match a with Navigate to => Some to | _ => None end) l.

Definition authenticated (l : list Action) : bool :=
  existsb (λ a, match a with SetAuthState true _ => true | _ => false end) l.

Definition showsForm (l : list Action) : bool :=
  existsb (λ a, match a with SetIsCheckingSession false => true | _ => false end) l.

(** The number of iterations that fail before the first answer, among
    [remaining] iterations from [attempt] on. *)
Fixpoint failuresBeforeAnswer (verify : nat → VerifyOutcome) (remaining attempt : nat)
  : nat :=
  match remaining with
  | O => O
  | Datatypes.S remaining' =>
      match verify attempt with
      | VerifyFailed =>
          Datatypes.S (failuresBeforeAnswer verify remaining' (Datatypes.S attempt))
      | _ => O
      end
  end.

End Login.

(** ** Worktrees settings: the debounced save of the script editor

    The editor of [WorktreesSection] saves its content one second after
    the last change.  The model is the component's state, its two timer
    refs and the timers of the page; what happens to it is a list of
    events: a change in the editor, time passing, a pending timer that
    fires (at or after its due time), the answer of a PUT in flight, the
    unmount of the component. *)

Module Settings.

Inductive Task :=
| SaveScript (content : string)     (* () => saveScript(value) *)
| HideSaved.                        (* () => setShowSaved(false) *)

Record Timer := { timerId : nat; due : Z; task : Task }.

(** The answer of [apiPut]: [{ success: true }], [{ success: false, error? }],
    or a rejection. *)
Inductive PutOutcome :=
| PutOk
| PutRefused (error : option string)
| PutFailed.

Inductive Output :=
| ApiPut (url projectPath content : string)
| ToastError (title : string) (description : option string)
| ConsoleError (msg : string).

Record View := {
  clock : Z;
  nextTimer : nat;
  timers : list Timer;
  saveTimeoutRef : option nat;
  savedTimeoutRef : option nat;
  scriptContent : string;
  isSaving : bool;
  showSaved : bool;
  inFlight : nat;
  outputs : list Output
}.

Inductive Event :=
| Edit (value : string)
| Wait (ms : N)
| Fire (id : nat)
| Settle (outcome : PutOutcome)
| Unmount.

(** The component once mounted; timer ids start at 1. *)
Definition mounted : View :=
  {| clock := 0; nextTimer := 1; timers := []; saveTimeoutRef := None;
     savedTimeoutRef := None; scriptContent := ""; isSaving := false;
     showSaved := false; inFlight := 0; outputs := [] |}.

Definition withTimers (l : list Timer) (v : View) : View :=
  {| clock := clock v; nextTimer := nextTimer v; timers := l;
     saveTimeoutRef := saveTimeoutRef v; savedTimeoutRef := savedTimeoutRef v;
     scriptContent := scriptContent v; isSaving := isSaving v;
     showSaved := showSaved v; inFlight := inFlight v; outputs := outputs v |}.

Definition withShowSaved (b : bool) (v : View) : View :=
  {| clock := clock v; nextTimer := nextTimer v; timers := timers v;
     saveTimeoutRef := saveTimeoutRef v; savedTimeoutRef := savedTimeoutRef v;
     scriptContent := scriptContent v; isSaving := isSaving v;
     showSaved := b; inFlight := inFlight v; outputs := outputs v |}.

Definition withIsSaving (b : bool) (v : View) : View :=
  {| clock := clock v; nextTimer := nextTimer v; timers := timers v;
     saveTimeoutRef := saveTimeoutRef v; savedTimeoutRef := savedTimeoutRef v;
     scriptContent := scriptContent v; isSaving := b;
     showSaved := showSaved v; inFlight := inFlight v; outputs := outputs v |}.

Definition output (o : Output) (v : View) : View :=
  {| clock := clock v; nextTimer := nextTimer v; timers := timers v;
     saveTimeoutRef := saveTimeoutRef v; savedTimeoutRef := savedTimeoutRef v;
     scriptContent := scriptContent v; isSaving := isSaving v;
     showSaved := showSaved v; inFlight := inFlight v; outputs := outputs v ++ [o] |}.

(** [setTimeout(task, ms)]: the id of the new timer and the view with it. *)
Definition setTimeout (t : Task) (ms : Z) (v : View) : nat * View :=
  (nextTimer v,
   {| clock := clock v; nextTimer := Datatypes.S (nextTimer v);
      timers := timers v ++ [{| timerId := nextTimer v; due := clock v + ms; task := t |}];
      saveTimeoutRef := saveTimeoutRef v; savedTimeoutRef := savedTimeoutRef v;
      scriptContent := scriptContent v; isSaving := isSaving v;
      showSaved := showSaved v; inFlight := inFlight v; outputs := outputs v |}).

Definition clearTimeout (id : nat) (v : View) : View :=
  withTimers (List.filter (λ t, negb (timerId t =? id)%nat) (timers v)) v.

(** [if (ref.current) clearTimeout(ref.current)]: an id is truthy unless
    it is 0. *)
Definition clearIfSet (ref : option nat) (v : View) : View :=
  match ref with
  | Some (Datatypes.S _ as id) => clearTimeout id v
  | _ => v
  end.

Definition handleContentChange (value : string) (v : View) : View :=
  let v1 := {| clock := clock v; nextTimer := nextTimer v; timers := timers v;
               saveTimeoutRef := saveTimeoutRef v; savedTimeoutRef := savedTimeoutRef v;
               scriptContent := value; isSaving := isSaving v;
               showSaved := false; inFlight := inFlight v; outputs := outputs v |} in
  let v2 := clearIfSet (saveTimeoutRef v1) v1 in
  let v3 := clearIfSet (savedTimeoutRef v2) v2 in
  let '(id, v4) := setTimeout (SaveScript value) 1000 v3 in
  {| clock := clock v4; nextTimer := nextTimer v4; timers := timers v4;
     saveTimeoutRef := Some id; savedTimeoutRef := savedTimeoutRef v4;
     scriptContent := scriptContent v4; isSaving := isSaving v4;
     showSaved := showSaved v4; inFlight := inFlight v4; outputs := outputs v4 |}.

(** [saveScript] up to its [await]: nothing without a project path. *)
Definition saveScript (project : option string) (content : string) (v : View) : View :=
  match project with
  | None | Some EmptyString => v
  | Some path =>
      let v1 := output (ApiPut "/api/worktree/init-script" path content)
                  (withIsSaving true v) in
      {| clock := clock v1; nextTimer := nextTimer v1; timers := timers v1;
         saveTimeoutRef := saveTimeoutRef v1; savedTimeoutRef := savedTimeoutRef v1;
         scriptContent := scriptContent v1; isSaving := isSaving v1;
         showSaved := showSaved v1; inFlight := Datatypes.S (inFlight v1);
         outputs := outputs v1 |}
  end.

(** [saveScript] from the answer of its [await] to the end of [finally]. *)
Definition settle (outcome : PutOutcome) (v : View) : View :=
  match inFlight v with
  | O => v
  | Datatypes.S n =>
      let v0 := {| clock := clock v; nextTimer := nextTimer v; timers := timers v;
                   saveTimeoutRef := saveTimeoutRef v;
                   savedTimeoutRef := savedTimeoutRef v;
                   scriptContent := scriptContent v; isSaving := isSaving v;
                   showSaved := showSaved v; inFlight := n; outputs := outputs v |} in
      let v1 :=
        match outcome with
        | PutOk =>
            let '(id, v2) := setTimeout HideSaved 2000 (withShowSaved true v0) in
            {| clock := clock v2; nextTimer := nextTimer v2; timers := timers v2;
               saveTimeoutRef := saveTimeoutRef v2; savedTimeoutRef := Some id;
               scriptContent := scriptContent v2; isSaving := isSaving v2;
               showSaved := showSaved v2; inFlight := inFlight v2;
               outputs := outputs v2 |}
        | PutRefused error => output (ToastError "Failed to save init script" error) v0
        | PutFailed =>
            output (ToastError "Failed to save init script" None)
              (output (ConsoleError "Failed to save init script:") v0)
        end in
      withIsSaving false v1
  end.

Definition runTask (project : option string) (t : Task) (v : View) : View :=
  match t with
  | SaveScript content => saveScript project content v
  | HideSaved => withShowSaved false v
  end.

(** Removing the first timer with the given id. *)
Fixpoint removeTimer (id : nat) (l : list Timer) : list Timer :=
  match l with
  | [] => []
  | t :: l' => if (timerId t =? id)%nat then l' else t :: removeTimer id l'
  end.

(** A pending timer fires once its due time is reached. *)
Definition fire (project : option string) (id : nat) (v : View) : View :=
  match List.find (λ t, (timerId t =? id)%nat) (timers v) with
  | Some t =>
      if due t <=? clock v
      then runTask project (task t) (withTimers (removeTimer id (timers v)) v)
      else v
  | None => v
  end.

(** The cleanup of the component. *)
Definition unmount (v : View) : View :=
  clearIfSet (savedTimeoutRef v) (clearIfSet (saveTimeoutRef v) v).

Definition step (project : option string) (v : View) (ev : Event) : View :=
  match ev with
  | Edit value => handleContentChange value v
  | Wait ms =>
      {| clock := clock v + Z.of_N ms; nextTimer := nextTimer v; timers := timers v;
         saveTimeoutRef := saveTimeoutRef v; savedTimeoutRef := savedTimeoutRef v;
         scriptContent := scriptContent v; isSaving := isSaving v;
         showSaved := showSaved v; inFlight := inFlight v; outputs := outputs v |}
  | Fire id => fire project id v
  | Settle outcome => settle outcome v
  | Unmount => unmount v
  end.

Definition run (project : option string) (evs : list Event) (v : View) : View :=
  fold_left (step project) evs v.

(** The contents sent by [apiPut], oldest first. *)
Definition puts (v : View) : list string :=
  omap (λ o, match o with ApiPut _ _ content => Some content | _ => None end) (outputs v).

Definition isSave (t : Timer) : bool :=
  match task t with SaveScript _ => true | HideSaved => false end.

Definition saveTimers (v : View) : list Timer := List.filter isSave (timers v).

(** Events during which the editor is left alone for less than [bound]
    milliseconds: no change, no unmount. *)
Definition waited (evs : list Event) : Z :=
  foldr (λ ev acc, match ev with Wait ms => Z.of_N ms + acc | _ => acc end) 0 evs.

Definition idle (ev : Event) : bool :=
  match ev with
  | Edit _ | Unmount => false
  | Wait _ | Fire _ | Settle _ => true
  end.

Definition quiet (bound : Z) (evs : list Event) : bool :=
  forallb idle evs && (waited evs <? bound).

(** A burst of changes: each value followed by a quiet gap. *)
Definition burstEvents (burst : list (string * list Event)) : list Event :=
  concat (map (λ c, Edit c.1 :: c.2) burst).

(** Every pending save timer is the one [saveTimeoutRef] points to. *)
Definition tracked (v : View) : Prop :=
  Forall (λ t, saveTimeoutRef v = Some (timerId t) ∧ timerId t ≠ O) (saveTimers v).

(** The timers left by [clearIfSet ref]. *)
Definition cleared (ref : option nat) (l : list Timer) : list Timer :=
  match ref with
  | Some (Datatypes.S _ as id) => List.filter (λ t, negb (timerId t =? id)%nat) l
  | _ => l
  end.

(** What holds of every view the component reaches: the pending save
    timers are tracked by the ref, and timer ids are positive, fresh and
    distinct. *)
Definition invariant (v : View) : Prop :=
  tracked v
  ∧ nextTimer v ≠ O
  ∧ Forall (λ t, (timerId t < nextTimer v)%nat) (timers v)
  ∧ NoDup (map timerId (timers v)).

Definition isEdit (ev : Event) : bool :=
  match ev with Edit _ => true | _ => false end.

Definition waitOf (ev : Event) : Z :=
  match ev with Wait ms => Z.of_N ms | _ => 0 end.

End Settings.

(** ** Symbolic execution of the runner *)

Ltac exec :=
  cbv beta iota zeta delta
    [runInitScript onExit onError onStdout onStderr listener
     hasInitScriptRun mbind M_bind mret M_ret getHost newDateISO logger emit
     spawn readMeta writeMeta record after host now store trace negb].

Ltac reassoc := repeat rewrite <- app_assoc; simpl app.

Section Steps.
Context {Store : Type} `{MetadataStore Store}.
Implicit Types (w : World Store) (options : InitScriptOptions).

Lemma since_after w s d : since w (after w s d) = d.
Proof. unfold since, after; simpl. apply drop_app_length. Qed.

Lemma after_after w s d s' d' : after (after w s d) s' d' = after w s' (d ++ d').
Proof. unfold after; simpl. by rewrite app_assoc. Qed.

Lemma after_nil w : after w (store w) [] = w.
Proof. destruct w; unfold after; simpl. by rewrite app_nil_r. Qed.

Lemma run_no_script options w :
  existsSync (host w) (getInitScriptPath (host w) (projectPath options)) = false →
  runInitScript options w
  = (Normal None,
     after w (store w)
       [Log LogDebug (noScriptLine (getInitScriptPath (host w) (projectPath options)))]).
Proof.
  destruct w as [h t s tr]; simpl. intros Hno.
  exec. rewrite Hno. reflexivity.
Qed.

Lemma run_gated options w :
  existsSync (host w) (getInitScriptPath (host w) (projectPath options)) = true →
  gate (readWorktreeMetadata (store w) (projectPath options) (branchName options)) = true →
  runInitScript options w
  = (Normal None,
     after w (store w)
       [MetaRead (projectPath options) (branchName options);
        Log LogInfo (skippingLine (branchName options))]).
Proof.
  destruct w as [h t s tr]; simpl. intros Hyes Hgate.
  exec. rewrite Hyes. unfold gate in Hgate. rewrite Hgate.
  reassoc. reflexivity.
Qed.

Lemma run_no_shell options w :
  existsSync (host w) (getInitScriptPath (host w) (projectPath options)) = true →
  gate (readWorktreeMetadata (store w) (projectPath options) (branchName options)) = false →
  getShellCommand (host w) = None →
  let p := projectPath options in
  let b := branchName options in
  let r := preflightRecord (host w) b (now w) in
  runInitScript options w
  = match writeWorktreeMetadata (store w) p b r with
    | IOOk s' =>
        (Normal None,
         after w s'
           [MetaRead p b; Log LogError (noShellError (host w)); MetaWrite p b r;
            Emit (InitCompleted p (worktreePath options) b false None
                    (Some (noShellError (host w))))])
    | IOError e =>
        (Thrown e,
         after w (store w)
           [MetaRead p b; Log LogError (noShellError (host w)); MetaWrite p b r])
    end.
Proof.
  destruct w as [h t s tr]; simpl. intros Hyes Hgate Hsh.
  exec. rewrite Hyes. unfold gate in Hgate. rewrite Hgate, Hsh.
  unfold preflightRecord.
  destruct (writeWorktreeMetadata _ _ _ _); reassoc; reflexivity.
Qed.

Lemma run_shell options w sh :
  existsSync (host w) (getInitScriptPath (host w) (projectPath options)) = true →
  gate (readWorktreeMetadata (store w) (projectPath options) (branchName options)) = false →
  getShellCommand (host w) = Some sh →
  let p := projectPath options in
  let b := branchName options in
  let r := runningRecord b (readWorktreeMetadata (store w) p b) (now w) in
  let child := childOf (host w) options sh in
  runInitScript options w
  = match writeWorktreeMetadata (store w) p b r with
    | IOOk s' =>
        match spawnError (host w) child with
        | None =>
            (Normal (Some child),
             after w s'
               [MetaRead p b; Log LogInfo (runningLine b (worktreePath options));
                MetaRead p b; MetaWrite p b r;
                Emit (InitStarted p (worktreePath options) b);
                Spawn child])
        | Some e =>
            (Thrown e,
             after w s'
               [MetaRead p b; Log LogInfo (runningLine b (worktreePath options));
                MetaRead p b; MetaWrite p b r;
                Emit (InitStarted p (worktreePath options) b)])
        end
    | IOError e =>
        (Thrown e,
         after w (store w)
           [MetaRead p b; Log LogInfo (runningLine b (worktreePath options));
            MetaRead p b; MetaWrite p b r])
    end.
Proof.
  destruct w as [h t s tr]; simpl. intros Hyes Hgate Hsh.
  exec. rewrite Hyes. unfold gate in Hgate. rewrite Hgate, Hsh.
  unfold runningRecord, childOf.
  destruct (writeWorktreeMetadata _ _ _ _); [| reassoc; reflexivity].
  cbn [host]. destruct (spawnError h _); reassoc; reflexivity.
Qed.

Lemma onStdout_eq options content w :
  onStdout options content w
  = (Normal (),
     after w (store w)
       [Emit (InitOutput (projectPath options) (branchName options) Stdout content)]).
Proof. destruct w; reflexivity. Qed.

Lemma onStderr_eq options content w :
  onStderr options content w
  = (Normal (),
     after w (store w)
       [Emit (InitOutput (projectPath options) (branchName options) Stderr content)]).
Proof. destruct w; reflexivity. Qed.

Lemma onExit_eq options code w :
  let p := projectPath options in
  let b := branchName options in
  let r := exitRecord b (readWorktreeMetadata (store w) p b) (now w) code in
  onExit options code w
  = match writeWorktreeMetadata (store w) p b r with
    | IOOk s' =>
        (Normal (),
         after w s'
           [Log LogInfo (exitLine b code); MetaRead p b; MetaWrite p b r;
            Emit (InitCompleted p (worktreePath options) b (exitSuccess code)
                    (Some code) None)])
    | IOError e =>
        (Thrown e,
         after w (store w) [Log LogInfo (exitLine b code); MetaRead p b; MetaWrite p b r])
    end.
Proof.
  destruct w as [h t s tr]; simpl.
  exec. unfold exitRecord, exitSuccess, exitLine.
  destruct code as [[| |]|];
    destruct (writeWorktreeMetadata _ _ _ _); reassoc; reflexivity.
Qed.

Lemma onError_eq options message w :
  let p := projectPath options in
  let b := branchName options in
  let r := errorRecord b (readWorktreeMetadata (store w) p b) (now w) message in
  onError options message w
  = match writeWorktreeMetadata (store w) p b r with
    | IOOk s' =>
        (Normal (),
         after w s'
           [Log LogError (errorLine b message); MetaRead p b; MetaWrite p b r;
            Emit (InitCompleted p (worktreePath options) b false None (Some message))])
    | IOError e =>
        (Thrown e,
         after w (store w)
           [Log LogError (errorLine b message); MetaRead p b; MetaWrite p b r])
    end.
Proof.
  destruct w as [h t s tr]; simpl.
  exec. unfold errorRecord, errorLine.
  destruct (writeWorktreeMetadata _ _ _ _); reassoc; reflexivity.
Qed.

End Steps.

(** ** The early exits: absent script, idempotency gate *)

Section EarlyExits.
Context {Store : Type} `{MetadataStore Store}.
Implicit Types (w : World Store) (options : InitScriptOptions).

Lemma silent_app t1 t2 : silent t1 → silent t2 → silent (t1 ++ t2).
Proof.
  unfold silent, metadataWrites, spawned, published.
  intros (Hw1 & Hs1 & Hp1) (Hw2 & Hs2 & Hp2).
  rewrite !omap_app, Hw1, Hs1, Hp1, Hw2, Hs2, Hp2. done.
Qed.

Lemma gate_terminal existing m :
  existing = Some m → initScriptRan m = Some true → gate existing = true.
Proof. intros -> Hran. unfold gate. by rewrite Hran. Qed.


(** Behind a closed gate any number of invocations only read and log. *)
Lemma runRepeatedly_gated options (n : nat) :
  ∀ w,
    existsSync (host w) (getInitScriptPath (host w) (projectPath options)) = true →
    gate (readWorktreeMetadata (store w) (projectPath options) (branchName options)) = true →
    ∃ d, runRepeatedly n options w = (Normal (), after w (store w) d) ∧ silent d.
Proof.
  induction n as [|n IH]; intros w Hyes Hgate.
  - exists []. rewrite after_nil. by split.
  - pose proof (run_gated options w Hyes Hgate) as Hrun.
    set (d1 := [MetaRead (projectPath options) (branchName options);
                Log LogInfo (skippingLine (branchName options))]) in *.
    destruct (IH (after w (store w) d1) Hyes Hgate) as (d & Hrest & Hsilent).
    exists (d1 ++ d)%list. split.
    + cbn [runRepeatedly]. unfold mbind, M_bind. rewrite Hrun, Hrest. simpl store. by rewrite after_after.
    + apply silent_app; [by repeat split | done].
Qed.

(** C7: when [<projectPath>/.automaker/worktree-init.sh] does not exist,
    [runInitScript] returns at once: the store is untouched and the
    invocation performs no metadata read, no metadata write, no spawn and
    publishes no event. *)
Theorem C7_absent_script_is_a_silent_noop options w :
  existsSync (host w) (getInitScriptPath (host w) (projectPath options)) = false →
  let w' := (runInitScript options w).2 in
  (runInitScript options w).1 = Normal None
  ∧ store w' = store w
  ∧ metadataReads (since w w') = []
  ∧ metadataWrites (since w w') = []
  ∧ spawned (since w w') = []
  ∧ published (since w w') = [].
Proof.
  intros Hno. rewrite (run_no_script options w Hno). simpl.
  rewrite since_after. by repeat split.
Qed.

(** C1: once the record of (project, branch) has [initScriptRan === true],
    an invocation of [runInitScript] with the script present returns
    without a child, and so does any number [n] of further invocations:
    the store is left as it was, nothing is spawned, no metadata is
    written and no event is published. *)
Theorem C1_terminal_record_blocks_every_rerun options w m (n : nat) :
  existsSync (host w) (getInitScriptPath (host w) (projectPath options)) = true →
  readWorktreeMetadata (store w) (projectPath options) (branchName options) = Some m →
  initScriptRan m = Some true →
  let w' := (runRepeatedly n options w).2 in
  (runInitScript options w).1 = Normal None
  ∧ (runRepeatedly n options w).1 = Normal ()
  ∧ store w' = store w
  ∧ spawned (since w w') = []
  ∧ metadataWrites (since w w') = []
  ∧ published (since w w') = [].
Proof.
  intros Hyes Hread Hran.
  pose proof (gate_terminal _ m Hread Hran) as Hgate.
  destruct (runRepeatedly_gated options n w Hyes Hgate) as (d & Hrun & Hw & Hs & Hp).
  rewrite (run_gated options w Hyes Hgate), Hrun. simpl.
  rewrite since_after. by repeat split.
Qed.

End EarlyExits.

(** ** Shell resolution and the two ways past the gate *)

Section PastTheGate.
Context {Store : Type} `{MetadataStore Store}.
Implicit Types (w : World Store) (options : InitScriptOptions).




End PastTheGate.

(** ** The end of the child process *)

Section ProcessEnd.
Context {Store : Type} `{MetadataStore Store}.
Implicit Types (w : World Store) (options : InitScriptOptions).






End ProcessEnd.

(** ** Every record written is well formed *)

Section Invariant.
Context {Store : Type} `{MetadataStore Store}.
Implicit Types (w : World Store) (options : InitScriptOptions).

Lemma preflightRecord_wf h b t : wellFormed (preflightRecord h b t).
Proof. split; [by split | done]. Qed.

Lemma runningRecord_wf b existing t : wellFormed (runningRecord b existing t).
Proof.
  split; simpl.
  - split; discriminate.
  - intros [e He]. discriminate.
Qed.

Lemma exitRecord_wf b existing t code : wellFormed (exitRecord b existing t code).
Proof.
  unfold exitRecord. split; simpl.
  - by destruct (exitSuccess code).
  - destruct (exitSuccess code); [intros [e He]; discriminate | done].
Qed.

Lemma errorRecord_wf b existing t message : wellFormed (errorRecord b existing t message).
Proof. split; [by split | done]. Qed.

Lemma record_after e w s d :
  record e (after w s d) = after w s (d ++ [e]).
Proof. unfold record, after; simpl. by rewrite app_assoc. Qed.

Create HintDb wf.
Local Hint Resolve preflightRecord_wf runningRecord_wf exitRecord_wf errorRecord_wf : wf.

Ltac frame :=
  do 2 eexists; split;
  [ reflexivity
  | cbn [metadataWrites omap list_omap app];
    repeat (apply List.Forall_cons; [solve [auto with wf] |]); apply List.Forall_nil ].

Lemma run_frame options w :
  ∃ r s d,
    runInitScript options w = (r, after w s d)
    ∧ Forall wellFormed (metadataWrites d).
Proof.
  destruct (existsSync (host w) (getInitScriptPath (host w) (projectPath options)))
    eqn:Hscript.
  - destruct (gate (readWorktreeMetadata (store w) (projectPath options)
                      (branchName options))) eqn:Hgate.
    + rewrite (run_gated options w Hscript Hgate). eexists. frame.
    + destruct (getShellCommand (host w)) as [sh|] eqn:Hsh.
      * rewrite (run_shell options w sh Hscript Hgate Hsh). cbv zeta.
        destruct (writeWorktreeMetadata _ _ _ _) as [s'|e];
          [destruct (spawnError _ _) |]; eexists; frame.
      * rewrite (run_no_shell options w Hscript Hgate Hsh).
        destruct (writeWorktreeMetadata _ _ _ _) as [s'|e]; eexists.
        -- frame.
        -- frame.
  - rewrite (run_no_script options w Hscript). eexists. frame.
Qed.

Lemma dispatch_frame options ev w :
  ∃ s d,
    dispatch options w ev = after w s d
    ∧ Forall wellFormed (metadataWrites d).
Proof.
  unfold dispatch, listener. destruct ev as [content|content|code|message].
  - rewrite onStdout_eq. frame.
  - rewrite onStderr_eq. frame.
  - rewrite onExit_eq.
    destruct (writeWorktreeMetadata _ _ _ _) as [s'|e].
    + frame.
    + rewrite record_after. frame.
  - rewrite onError_eq.
    destruct (writeWorktreeMetadata _ _ _ _) as [s'|e].
    + frame.
    + rewrite record_after. frame.
Qed.

Lemma metadataWrites_app t1 t2 :
  metadataWrites (t1 ++ t2) = (metadataWrites t1 ++ metadataWrites t2)%list.
Proof. apply omap_app. Qed.

Lemma published_app t1 t2 :
  published (t1 ++ t2) = (published t1 ++ published t2)%list.
Proof. apply omap_app. Qed.

Lemma deliver_frame options evs :
  ∀ w, ∃ s d,
    deliver options evs w = after w s d
    ∧ Forall wellFormed (metadataWrites d).
Proof.
  induction evs as [|ev evs IH]; intros w.
  - exists (store w), []. rewrite after_nil. by split.
  - destruct (dispatch_frame options ev w) as (s1 & d1 & Hstep & Hwf1).
    destruct (IH (after w s1 d1)) as (s2 & d2 & Hrest & Hwf2).
    exists s2, (d1 ++ d2)%list. split.
    + unfold deliver in *. simpl. by rewrite Hstep, Hrest, after_after.
    + rewrite metadataWrites_app. by apply Forall_app.
Qed.

(** C8: every record the runner writes, in [runInitScript] and in the
    listeners of the child, for whatever the child does and however the
    store answers, has [initScriptRan] true exactly when its status is
    [success] or [failed], and carries an [initScriptError] only when its
    status is [failed]. *)
Theorem C8_written_records_are_well_formed options (evs : list ChildEvent) w :
  Forall wellFormed (metadataWrites (since w (runInitScript options w).2))
  ∧ Forall wellFormed (metadataWrites (since w (deliver options evs w)))
  ∧ Forall wellFormed (metadataWrites (since w (session options evs w))).
Proof.
  destruct (run_frame options w) as (r & s1 & d1 & Hrun & Hwf1).
  destruct (deliver_frame options evs w) as (s2 & d2 & Hdel & Hwf2).
  split; [| split].
  - rewrite Hrun. simpl. by rewrite since_after.
  - by rewrite Hdel, since_after.
  - unfold session. rewrite Hrun.
    destruct (deliver_frame options evs (after w s1 d1)) as (s3 & d3 & Hdel3 & Hwf3).
    destruct r as [[c|]|e]; try by rewrite since_after.
    rewrite Hdel3, after_after, since_after, metadataWrites_app.
    by apply Forall_app.
Qed.

End Invariant.

(** ** Order of the writes and events of one invocation *)

Section Ordering.
Context {Store : Type} `{MetadataStore Store}.
Implicit Types (w : World Store) (options : InitScriptOptions).


Lemma dispatch_output options c w :
  dispatch options w (outputOf c) = after w (store w) [Emit (outputEvent options c)].
Proof.
  destruct c as [[|] content]; unfold dispatch, outputOf; cbn [fst snd listener].
  - by rewrite onStdout_eq.
  - by rewrite onStderr_eq.
Qed.

Lemma deliver_outputs options chunks :
  ∀ w,
    deliver options (map outputOf chunks) w
    = after w (store w) (map (λ c, Emit (outputEvent options c)) chunks).
Proof.
  induction chunks as [|c chunks IH]; intros w.
  - simpl. by rewrite after_nil.
  - unfold deliver in *. simpl. rewrite dispatch_output, IH. simpl store.
    by rewrite after_after.
Qed.







End Ordering.

(** ** Fields the runner does not own *)

Section Preservation.
Context {Store : Type} `{MetadataStore Store}.
Implicit Types (w : World Store) (options : InitScriptOptions).

(** The running write and both terminal writes copy [pr] and a non-empty
    [createdAt] from the record they have just read. *)
Lemma merged_records_keep_pr_and_createdAt b m t code message :
  createdAt m ≠ "" →
  let written := [runningRecord b (Some m) t; exitRecord b (Some m) t code;
                  errorRecord b (Some m) t message] in
  Forall (λ r, pr r = pr m ∧ createdAt r = createdAt m) written.
Proof.
  intros Hcreated written. subst written.
  assert (Hor : orElse (createdAt <$> Some m) t = createdAt m).
  { simpl. by destruct (createdAt m). }
  repeat apply List.Forall_cons; try apply List.Forall_nil; by split.
Qed.

(** The write of the pre-flight failure reads nothing back: it has no [pr]
    and stamps [createdAt] with the current time. *)
Lemma preflight_record_is_fresh h b t :
  pr (preflightRecord h b t) = None ∧ createdAt (preflightRecord h b t) = t.
Proof. by split. Qed.

End Preservation.

(** C2: the record of (/p, feature-x) holds [pr = "123"] and a [createdAt]
    of 2025; on a Linux host with the script but neither [/bin/bash] nor
    [/bin/sh], [runInitScript] writes the pre-flight failure record, which
    has no [pr] and the current time as [createdAt]: after the write the
    store has lost both values. *)
Theorem C2_preflight_write_drops_pr_and_createdAt :
  let existing := prRecord None None in
  let w := worldOf (linuxWith []) (storeWith existing) in
  let w' := (runInitScript featureX w).2 in
  readWorktreeMetadata (store w) "/p" "feature-x" = Some existing
  ∧ pr existing = Some "123"
  ∧ createdAt existing = "2025-06-30T12:00:00.000Z"
  ∧ (runInitScript featureX w).1 = Normal None
  ∧ pr <$> metadataWrites (since w w') = [None]
  ∧ createdAt <$> metadataWrites (since w w') = ["2026-01-01T00:00:00.000Z"]
  ∧ pr <$> readWorktreeMetadata (store w') "/p" "feature-x" = Some None
  ∧ createdAt <$> readWorktreeMetadata (store w') "/p" "feature-x"
    = Some "2026-01-01T00:00:00.000Z".
Proof. vm_compute. by repeat split. Qed.

(** ** Failures of the store *)







Section StoreFailures.
Context {Store : Type} `{MetadataStore Store}.
Implicit Types (w : World Store) (options : InitScriptOptions).



End StoreFailures.

(** ** Concrete runs *)

(** Script [echo hello && exit 0] on branch feature-x of project [/p]. *)
Example scenario_hello_exit_0 :
  let w := worldOf (linuxWith ["/bin/bash"]) emptyStore in
  let w' := session featureX [StdoutData "hello"; Exit (Some 0)] w in
  published (since w w')
  = [InitStarted "/p" "/w" "feature-x";
     InitOutput "/p" "feature-x" Stdout "hello";
     InitCompleted "/p" "/w" "feature-x" true (Some (Some 0)) None]
  ∧ (readWorktreeMetadata (store w') "/p" "feature-x" ≫= initScriptRan) = Some true
  ∧ (readWorktreeMetadata (store w') "/p" "feature-x" ≫= initScriptStatus) = Some Success.
Proof. vm_compute. by repeat split. Qed.

(** Script [exit 7]. *)
Example scenario_exit_7 :
  let w := worldOf (linuxWith ["/bin/bash"]) emptyStore in
  let w' := session featureX [Exit (Some 7)] w in
  completions (since w w')
  = [InitCompleted "/p" "/w" "feature-x" false (Some (Some 7)) None]
  ∧ (readWorktreeMetadata (store w') "/p" "feature-x" ≫= initScriptError)
    = Some "Exit code: 7".
Proof. vm_compute. by repeat split. Qed.

(** A second invocation after a terminal record does nothing more. *)
Example scenario_second_invocation :
  let w := worldOf (linuxWith ["/bin/sh"]) emptyStore in
  let w1 := session featureX [Exit (Some 1)] w in
  let w2 := session featureX [Exit (Some 0)] w1 in
  store w2 = store w1
  ∧ since w1 w2
    = [MetaRead "/p" "feature-x"; Log LogInfo (skippingLine "feature-x")].
Proof. vm_compute. by repeat split. Qed.


Lemma C7_witness :
  let w := worldOf (hostWith "linux" []) emptyStore in
  existsSync (host w) (getInitScriptPath (host w) (projectPath featureX)) = false
  ∧ (runInitScript featureX w).1 = Normal None
  ∧ metadataReads (since w (runInitScript featureX w).2) = [].
Proof.
  intros w.
  assert (Hno : existsSync (host w) (getInitScriptPath (host w) (projectPath featureX))
                = false) by reflexivity.
  pose proof (C7_absent_script_is_a_silent_noop featureX w Hno) as Hc.
  cbv zeta in Hc. destruct Hc as (Hret & _ & Hreads & _).
  split; [exact Hno |]. split; [exact Hret | exact Hreads].
Defined.

Lemma C1_witness :
  let m := prRecord (Some true) (Some Success) in
  let w := worldOf (linuxWith ["/bin/bash"]) (storeWith m) in
  existsSync (host w) (getInitScriptPath (host w) (projectPath featureX)) = true
  ∧ readWorktreeMetadata (store w) (projectPath featureX) (branchName featureX) = Some m
  ∧ initScriptRan m = Some true
  ∧ (runRepeatedly 3 featureX w).1 = Normal ()
  ∧ spawned (since w (runRepeatedly 3 featureX w).2) = [].
Proof.
  intros m w.
  assert (Hyes : existsSync (host w) (getInitScriptPath (host w) (projectPath featureX))
                 = true) by reflexivity.
  assert (Hread : readWorktreeMetadata (store w) (projectPath featureX)
                    (branchName featureX) = Some m) by (vm_compute; reflexivity).
  assert (Hran : initScriptRan m = Some true) by reflexivity.
  pose proof (C1_terminal_record_blocks_every_rerun featureX w m 3 Hyes Hread Hran) as Hc.
  cbv zeta in Hc. destruct Hc as (_ & Hret & _ & Hspawned & _).
  repeat split; assumption.
Defined.







(** ** The shell resolver on every platform *)

Section Resolver.

Lemma find_first_existing (f : string → bool) pre g post :
  Forall (λ c, f c = false) pre → f g = true →
  List.find f (pre ++ g :: post) = Some g.
Proof.
  intros Hpre Hg. induction Hpre as [|c pre Hc _ IH]; simpl.
  - by rewrite Hg.
  - by rewrite Hc.
Qed.

Lemma find_none_existing (f : string → bool) l :
  Forall (λ c, f c = false) l → List.find f l = None.
Proof.
  intros Hl. induction Hl as [|c l Hc _ IH]; simpl; [done |]. by rewrite Hc.
Qed.

Lemma resolved_shell_facts h sh :
  getShellCommand h = Some sh → existsSync h (shell sh) = true ∧ args sh = [].
Proof.
  unfold getShellCommand, findGitBash.
  destruct (String.eqb (platform h) "win32"); cbn [negb].
  - destruct (List.find (existsSync h) (GIT_BASH_PATHS h)) as [g|] eqn:Hfind;
      [| discriminate].
    apply List.find_some in Hfind as [_ Hex].
    destruct g as [|a g]; [discriminate |]. by intros [= <-].
  - destruct (existsSync h "/bin/bash") eqn:Hbash; [by intros [= <-] |].
    destruct (existsSync h "/bin/sh") eqn:Hbin; [by intros [= <-] | discriminate].
Qed.

(** X1: whatever the platform, a shell that [getShellCommand] answers
    exists on disk, has a non-empty path and comes with no arguments; on
    Windows it is one of the Git Bash candidates, elsewhere it is
    [/bin/bash] or [/bin/sh]. *)
Theorem X1_resolved_shell_exists_on_disk h sh :
  getShellCommand h = Some sh →
  existsSync h (shell sh) = true
  ∧ args sh = []
  ∧ shell sh ≠ ""
  ∧ (platform h = "win32" → In (shell sh) (GIT_BASH_PATHS h))
  ∧ (platform h ≠ "win32" → shell sh = "/bin/bash" ∨ shell sh = "/bin/sh").
Proof.
  unfold getShellCommand, findGitBash.
  destruct (String.eqb_spec (platform h) "win32") as [Hwin|Hposix]; cbn [negb].
  - destruct (List.find (existsSync h) (GIT_BASH_PATHS h)) as [g|] eqn:Hfind;
      [| discriminate].
    apply List.find_some in Hfind as [Hin Hex].
    destruct g as [|a g]; [discriminate |]. intros [= <-]. simpl.
    by repeat split.
  - destruct (existsSync h "/bin/bash") eqn:Hbash.
    + intros [= <-]. simpl. repeat split; try done. intros _. by left.
    + destruct (existsSync h "/bin/sh") eqn:Hbin; [| done].
      intros [= <-]. simpl. repeat split; try done. intros _. by right.
Qed.

(** X2: on Windows the candidates are tried in the order of
    [GIT_BASH_PATHS]: the first one that exists is the shell, whatever
    exists after it. *)
Theorem X2_windows_takes_the_first_existing_git_bash h pre g post :
  platform h = "win32" →
  GIT_BASH_PATHS h = (pre ++ g :: post)%list →
  Forall (λ c, existsSync h c = false) pre →
  existsSync h g = true →
  g ≠ "" →
  getShellCommand h = Some {| shell := g; args := [] |}.
Proof.
  intros Hwin Hsplit Hpre Hg Hne.
  unfold getShellCommand, findGitBash. rewrite Hwin. cbn [String.eqb Ascii.eqb Bool.eqb negb].
  rewrite Hsplit, (find_first_existing _ pre g post Hpre Hg).
  by destruct g.
Qed.

(** X3: on Windows [/bin/bash] and [/bin/sh] are never consulted: when no
    Git Bash candidate exists there is no shell, and the diagnostic asks
    for Git for Windows. *)
Theorem X3_windows_never_falls_back_to_unix_shells h :
  platform h = "win32" →
  Forall (λ c, existsSync h c = false) (GIT_BASH_PATHS h) →
  getShellCommand h = None
  ∧ noShellError h
    = "Git Bash not found. Please install Git for Windows to run init scripts.".
Proof.
  intros Hwin Hnone. unfold getShellCommand, findGitBash, noShellError.
  rewrite Hwin. cbn [String.eqb Ascii.eqb Bool.eqb negb].
  by rewrite (find_none_existing _ _ Hnone).
Qed.

End Resolver.

Lemma X1_witness :
  let h := windowsWith ["C:\Program Files (x86)\Git\bin\bash.exe"] in
  let sh := {| shell := "C:\Program Files (x86)\Git\bin\bash.exe"; args := [] |} in
  getShellCommand h = Some sh ∧ existsSync h (shell sh) = true.
Proof.
  intros h sh.
  assert (Hsh : getShellCommand h = Some sh) by reflexivity.
  destruct (X1_resolved_shell_exists_on_disk h sh Hsh) as (Hex & _).
  split; [exact Hsh | exact Hex].
Defined.

Lemma X2_witness :
  let g := "C:\Program Files (x86)\Git\bin\bash.exe" in
  let h := windowsWith [g; "Programs\Git\bin\bash.exe"; "/bin/bash"] in
  platform h = "win32"
  ∧ GIT_BASH_PATHS h
    = (["C:\Program Files\Git\bin\bash.exe"] ++ g
       :: ["Programs\Git\bin\bash.exe"; "scoop\apps\git\current\bin\bash.exe"])%list
  ∧ existsSync h "C:\Program Files\Git\bin\bash.exe" = false
  ∧ existsSync h g = true
  ∧ getShellCommand h = Some {| shell := g; args := [] |}.
Proof.
  intros g h.
  assert (Hsplit : GIT_BASH_PATHS h
                   = (["C:\Program Files\Git\bin\bash.exe"] ++ g
                      :: ["Programs\Git\bin\bash.exe";
                          "scoop\apps\git\current\bin\bash.exe"])%list)
    by reflexivity.
  assert (Hpre : Forall (λ c, existsSync h c = false)
                   ["C:\Program Files\Git\bin\bash.exe"])
    by (apply List.Forall_cons; [reflexivity | apply List.Forall_nil]).
  assert (Hne : g ≠ "") by discriminate.
  pose proof (X2_windows_takes_the_first_existing_git_bash h _ g _
                eq_refl Hsplit Hpre eq_refl Hne) as Hc.
  split; [reflexivity |]. split; [exact Hsplit |]. split; [reflexivity |].
  split; [reflexivity | exact Hc].
Defined.

Lemma X3_witness :
  let h := windowsWith ["/bin/bash"; "/bin/sh"] in
  platform h = "win32"
  ∧ Forall (λ c, existsSync h c = false) (GIT_BASH_PATHS h)
  ∧ existsSync h "/bin/bash" = true
  ∧ getShellCommand h = None.
Proof.
  intros h.
  assert (Hnone : Forall (λ c, existsSync h c = false) (GIT_BASH_PATHS h))
    by (repeat (apply List.Forall_cons; [reflexivity |]); apply List.Forall_nil).
  destruct (X3_windows_never_falls_back_to_unix_shells h eq_refl Hnone) as (Hc & _).
  split; [reflexivity |]. split; [exact Hnone |]. split; [reflexivity | exact Hc].
Defined.

(** ** One equation per function of the runner *)

Ltac step := cbv beta iota zeta; cbn [fst snd].

Section Shapes.
Context {Store : Type} `{MetadataStore Store}.
Implicit Types (w : World Store) (options : InitScriptOptions).

Lemma run_shape options w :
  let p := projectPath options in
  let b := branchName options in
  let wt := worktreePath options in
  let existing := readWorktreeMetadata (store w) p b in
  runInitScript options w
  = if existsSync (host w) (getInitScriptPath (host w) p) then
      if gate existing then
        (Normal None, after w (store w) [MetaRead p b; Log LogInfo (skippingLine b)])
      else
        match getShellCommand (host w) with
        | Some sh =>
            let r := runningRecord b existing (now w) in
            match writeWorktreeMetadata (store w) p b r with
            | IOOk s' =>
                match spawnError (host w) (childOf (host w) options sh) with
                | None =>
                    (Normal (Some (childOf (host w) options sh)),
                     after w s'
                       [MetaRead p b; Log LogInfo (runningLine b wt); MetaRead p b;
                        MetaWrite p b r; Emit (InitStarted p wt b);
                        Spawn (childOf (host w) options sh)])
                | Some e =>
                    (Thrown e,
                     after w s'
                       [MetaRead p b; Log LogInfo (runningLine b wt); MetaRead p b;
                        MetaWrite p b r; Emit (InitStarted p wt b)])
                end
            | IOError e =>
                (Thrown e,
                 after w (store w)
                   [MetaRead p b; Log LogInfo (runningLine b wt); MetaRead p b;
                    MetaWrite p b r])
            end
        | None =>
            let r := preflightRecord (host w) b (now w) in
            match writeWorktreeMetadata (store w) p b r with
            | IOOk s' =>
                (Normal None,
                 after w s'
                   [MetaRead p b; Log LogError (noShellError (host w)); MetaWrite p b r;
                    Emit (InitCompleted p wt b false None (Some (noShellError (host w))))])
            | IOError e =>
                (Thrown e,
                 after w (store w)
                   [MetaRead p b; Log LogError (noShellError (host w)); MetaWrite p b r])
            end
        end
    else
      (Normal None,
       after w (store w) [Log LogDebug (noScriptLine (getInitScriptPath (host w) p))]).
Proof.
  intros p b wt existing. subst p b wt existing.
  destruct (existsSync (host w) (getInitScriptPath (host w) (projectPath options)))
    eqn:Hscript; [| by apply run_no_script].
  destruct (gate (readWorktreeMetadata (store w) (projectPath options)
                    (branchName options))) eqn:Hgate; [by apply run_gated |].
  destruct (getShellCommand (host w)) as [sh|] eqn:Hsh.
  - by apply run_shell.
  - by apply run_no_shell.
Qed.

Lemma dispatch_shape options ev w :
  let p := projectPath options in
  let b := branchName options in
  let wt := worktreePath options in
  let existing := readWorktreeMetadata (store w) p b in
  dispatch options w ev
  = match ev with
    | StdoutData content =>
        after w (store w) [Emit (outputEvent options (Stdout, content))]
    | StderrData content =>
        after w (store w) [Emit (outputEvent options (Stderr, content))]
    | Exit code =>
        let r := exitRecord b existing (now w) code in
        match writeWorktreeMetadata (store w) p b r with
        | IOOk s' =>
            after w s'
              [Log LogInfo (exitLine b code); MetaRead p b; MetaWrite p b r;
               Emit (InitCompleted p wt b (exitSuccess code) (Some code) None)]
        | IOError e =>
            after w (store w)
              [Log LogInfo (exitLine b code); MetaRead p b; MetaWrite p b r;
               UnhandledRejection e]
        end
    | ChildError message =>
        let r := errorRecord b existing (now w) message in
        match writeWorktreeMetadata (store w) p b r with
        | IOOk s' =>
            after w s'
              [Log LogError (errorLine b message); MetaRead p b; MetaWrite p b r;
               Emit (InitCompleted p wt b false None (Some message))]
        | IOError e =>
            after w (store w)
              [Log LogError (errorLine b message); MetaRead p b; MetaWrite p b r;
               UnhandledRejection e]
        end
    end.
Proof.
  intros p b wt existing. subst p b wt existing.
  unfold dispatch. destruct ev as [content|content|code|message]; cbn [listener].
  - by rewrite onStdout_eq.
  - by rewrite onStderr_eq.
  - rewrite onExit_eq. cbv zeta.
    destruct (writeWorktreeMetadata _ _ _ _); [done |]. by rewrite record_after.
  - rewrite onError_eq. cbv zeta.
    destruct (writeWorktreeMetadata _ _ _ _); [done |]. by rewrite record_after.
Qed.

Lemma deliver_cons options ev evs w :
  deliver options (ev :: evs) w = deliver options evs (dispatch options w ev).
Proof. reflexivity. Qed.

(** A property of traces that holds of what [runInitScript] and each
    listener append holds of a whole session. *)
Lemma session_frame options (P : list Effect → Prop) :
  P [] →
  (∀ d1 d2, P d1 → P d2 → P (d1 ++ d2)%list) →
  (∀ w, ∃ r s d, runInitScript options w = (r, after w s d) ∧ P d) →
  (∀ ev w, ∃ s d, dispatch options w ev = after w s d ∧ P d) →
  ∀ evs w, P (since w (deliver options evs w)) ∧ P (since w (session options evs w)).
Proof.
  intros Hnil Happ Hrun Hstep.
  assert (Hdel : ∀ evs w, ∃ s d, deliver options evs w = after w s d ∧ P d).
  { induction evs as [|ev evs IH]; intros w.
    - exists (store w), []. by rewrite after_nil.
    - destruct (Hstep ev w) as (s1 & d1 & Hd1 & HP1).
      destruct (IH (after w s1 d1)) as (s2 & d2 & Hd2 & HP2).
      exists s2, (d1 ++ d2)%list.
      rewrite deliver_cons, Hd1, Hd2, after_after. auto. }
  intros evs w. split.
  - destruct (Hdel evs w) as (s & d & -> & HP). by rewrite since_after.
  - unfold session. destruct (Hrun w) as (r & s1 & d1 & -> & HP1).
    destruct (Hdel evs (after w s1 d1)) as (s2 & d2 & Hd2 & HP2).
    destruct r as [[c|]|e]; rewrite ?since_after; try done.
    rewrite Hd2, after_after, since_after. auto.
Qed.

End Shapes.

(** ** What the runner spawns and streams *)

Section SpawnAndStream.
Context {Store : Type} `{MetadataStore Store}.
Implicit Types (w : World Store) (options : InitScriptOptions).

(** X4: a child is only ever spawned past an open gate, with a shell that
    exists on disk as command, the script (which exists) as its single
    argument, the worktree (not the project) as working directory, stdin
    ignored and both outputs piped, and the project path, worktree path
    and branch in its environment. *)
Theorem X4_spawned_child_runs_an_existing_shell_on_the_script options w child :
  let p := projectPath options in
  let b := branchName options in
  (runInitScript options w).1 = Normal (Some child) →
  gate (readWorktreeMetadata (store w) p b) = false
  ∧ existsSync (host w) (command child) = true
  ∧ existsSync (host w) (getInitScriptPath (host w) p) = true
  ∧ spawnArgs child = [getInitScriptPath (host w) p]
  ∧ cwd child = worktreePath options
  ∧ stdio child = ["ignore"; "pipe"; "pipe"]
  ∧ In ("AUTOMAKER_PROJECT_PATH", p) (envAdditions child)
  ∧ In ("AUTOMAKER_WORKTREE_PATH", worktreePath options) (envAdditions child)
  ∧ In ("AUTOMAKER_BRANCH", b) (envAdditions child)
  ∧ spawned (since w (runInitScript options w).2) = [child].
Proof.
  intros p b. rewrite run_shape. fold p b.
  destruct (existsSync (host w) (getInitScriptPath (host w) p)) eqn:Hscript; [| done].
  destruct (gate (readWorktreeMetadata (store w) p b)) eqn:Hgate; [done |].
  destruct (getShellCommand (host w)) as [sh|] eqn:Hsh; cbv zeta.
  - destruct (writeWorktreeMetadata _ _ _ _) as [s'|e]; [| done].
    destruct (spawnError _ _); [done |].
    simpl. intros [= <-].
    destruct (resolved_shell_facts _ _ Hsh) as (Hex & Hargs).
    rewrite since_after. unfold childOf; simpl. rewrite Hargs.
    repeat split; try done; simpl; tauto.
  - by destruct (writeWorktreeMetadata _ _ _ _).
Qed.

Lemma outputs_app t1 t2 : outputs (t1 ++ t2) = (outputs t1 ++ outputs t2)%list.
Proof. unfold outputs. by rewrite published_app, List.filter_app. Qed.

Lemma dispatch_outputs options ev w :
  ∃ s d,
    dispatch options w ev = after w s d
    ∧ outputs d = map (outputEvent options) (chunksOf [ev]).
Proof.
  rewrite dispatch_shape.
  destruct ev as [content|content|code|message]; cbv zeta;
    try destruct (writeWorktreeMetadata _ _ _ _); by do 2 eexists.
Qed.

Lemma chunksOf_cons ev evs : chunksOf (ev :: evs) = (chunksOf [ev] ++ chunksOf evs)%list.
Proof. unfold chunksOf. by destruct ev. Qed.

Lemma deliver_streams options evs :
  ∀ w, ∃ s d,
    deliver options evs w = after w s d
    ∧ outputs d = map (outputEvent options) (chunksOf evs).
Proof.
  induction evs as [|ev evs IH]; intros w.
  - exists (store w), []. by rewrite after_nil.
  - destruct (dispatch_outputs options ev w) as (s1 & d1 & Hd1 & Ho1).
    destruct (IH (after w s1 d1)) as (s2 & d2 & Hd2 & Ho2).
    exists s2, (d1 ++ d2)%list.
    rewrite deliver_cons, Hd1, Hd2, after_after. split; [done |].
    by rewrite (chunksOf_cons ev evs), map_app, outputs_app, Ho1, Ho2.
Qed.

(** X5: whatever the child does and however the store answers, the
    output events published are the chunks of the child, one event per
    chunk, in arrival order, each with its stream and its content; and
    the output listeners alone neither read nor change the store. *)
Theorem X5_one_output_event_per_chunk_in_arrival_order options
  (evs : list ChildEvent) (chunks : list (OutputType * string)) w :
  outputs (since w (deliver options evs w)) = map (outputEvent options) (chunksOf evs)
  ∧ store (deliver options (map outputOf chunks) w) = store w
  ∧ since w (deliver options (map outputOf chunks) w)
    = map (λ c, Emit (outputEvent options c)) chunks.
Proof.
  split; [| split].
  - destruct (deliver_streams options evs w) as (s & d & -> & Ho).
    by rewrite since_after.
  - by rewrite deliver_outputs.
  - by rewrite deliver_outputs, since_after.
Qed.

End SpawnAndStream.

Lemma X4_witness :
  let w := worldOf (linuxWith ["/bin/sh"]) emptyStore in
  let child := childOf (host w) featureX shCommand in
  (runInitScript featureX w).1 = Normal (Some child)
  ∧ existsSync (host w) (command child) = true
  ∧ spawnArgs child = [scriptP].
Proof.
  intros w child.
  assert (Hrun : (runInitScript featureX w).1 = Normal (Some child))
    by (vm_compute; reflexivity).
  pose proof (X4_spawned_child_runs_an_existing_shell_on_the_script featureX w child
                Hrun) as Hc.
  cbv zeta in Hc. destruct Hc as (_ & Hex & _ & Hargs & _).
  split; [exact Hrun |]. split; [exact Hex | exact Hargs].
Defined.

(** ** Records read back and written again *)

Section ReadModifyWrite.
Context {Store : Type} `{MetadataStore Store}.
Implicit Types (w : World Store) (options : InitScriptOptions).

Lemma orElse_nonempty s t : s ≠ "" → orElse (Some s) t = s.
Proof. by destruct s. Qed.

Lemma end_write options fin w :
  let p := projectPath options in
  let b := branchName options in
  metadataWrites (since w (dispatch options w (endOf fin)))
  = [endRecord b (readWorktreeMetadata (store w) p b) (now w) fin].
Proof.
  intros p b. rewrite dispatch_shape. fold p b.
  destruct fin as [code|message]; simpl endOf; cbv beta iota zeta;
    destruct (writeWorktreeMetadata _ _ _ _); by rewrite since_after.
Qed.

(** X6: with a record whose [createdAt] is not empty under the key, the
    record written when the process ends (exit or error) keeps its [pr]
    and its [createdAt]; so does every record [runInitScript] writes when
    a shell is resolved. *)
Theorem X6_merging_writes_keep_pr_and_createdAt options w m :
  let p := projectPath options in
  let b := branchName options in
  readWorktreeMetadata (store w) p b = Some m →
  createdAt m ≠ "" →
  (∀ fin, ∃ r,
     metadataWrites (since w (dispatch options w (endOf fin))) = [r]
     ∧ pr r = pr m ∧ createdAt r = createdAt m ∧ branch r = b)
  ∧ (is_Some (getShellCommand (host w)) →
     Forall (λ r, pr r = pr m ∧ createdAt r = createdAt m ∧ branch r = b)
       (metadataWrites (since w (runInitScript options w).2))).
Proof.
  intros p b Hread Hcreated.
  assert (Hor : ∀ t, orElse (createdAt <$> Some m) t = createdAt m)
    by (intros t; by apply orElse_nonempty).
  split.
  - intros fin. eexists. split; [apply end_write |]. fold p b. rewrite Hread.
    destruct fin as [code|message]; cbn [endRecord exitRecord errorRecord pr createdAt branch];
      by rewrite Hor.
  - intros [sh Hsh]. rewrite run_shape. fold p b. rewrite Hsh, Hread.
    destruct (existsSync _ _); step; [| by rewrite since_after].
    destruct (gate (Some m)); step; [by rewrite since_after |].
    destruct (writeWorktreeMetadata _ _ _ _); [destruct (spawnError _ _) |];
      step; rewrite since_after;
      cbn [metadataWrites omap list_omap];
      (apply List.Forall_cons; [| apply List.Forall_nil]);
      cbn [runningRecord pr createdAt branch]; by rewrite Hor.
Qed.

(** X7: with no record under the key, or one whose [createdAt] is the
    empty string, every record written (by [runInitScript] or when the
    process ends) is stamped with the current time; with no record it has
    no [pr]. *)
Theorem X7_createdAt_defaults_to_the_current_time options w :
  let p := projectPath options in
  let b := branchName options in
  let existing := readWorktreeMetadata (store w) p b in
  (existing = None ∨ createdAt <$> existing = Some "") →
  (∀ fin, ∃ r,
     metadataWrites (since w (dispatch options w (endOf fin))) = [r]
     ∧ createdAt r = now w ∧ pr r = existing ≫= pr)
  ∧ Forall (λ r, createdAt r = now w ∧ (existing = None → pr r = None))
      (metadataWrites (since w (runInitScript options w).2)).
Proof.
  intros p b existing Hexisting.
  assert (Hor : orElse (createdAt <$> existing) (now w) = now w).
  { destruct Hexisting as [-> | ->]; reflexivity. }
  split.
  - intros fin. eexists. split; [apply end_write |]. fold p b existing.
    by destruct fin.
  - rewrite run_shape. fold p b existing.
    destruct (existsSync _ _); step; [| by rewrite since_after].
    destruct (gate existing); step; [by rewrite since_after |].
    destruct (getShellCommand (host w)); step;
      destruct (writeWorktreeMetadata _ _ _ _); try destruct (spawnError _ _);
      step; rewrite since_after;
      cbn [metadataWrites omap list_omap];
      (apply List.Forall_cons; [| apply List.Forall_nil]);
      cbn [runningRecord preflightRecord pr createdAt branch];
      rewrite ?Hor; (split; [done | by intros ->]).
Qed.

End ReadModifyWrite.

Lemma X6_witness :
  let m := prRecord (Some false) (Some Running) in
  let w := worldOf (linuxWith ["/bin/bash"]) (storeWith m) in
  readWorktreeMetadata (store w) (projectPath featureX) (branchName featureX) = Some m
  ∧ createdAt m ≠ ""
  ∧ is_Some (getShellCommand (host w))
  ∧ (∃ r, metadataWrites (since w (dispatch featureX w (endOf (Exited (Some 3))))) = [r]
          ∧ pr r = Some "123")
  ∧ Forall (λ r, pr r = pr m ∧ createdAt r = createdAt m ∧ branch r = "feature-x")
      (metadataWrites (since w (runInitScript featureX w).2)).
Proof.
  intros m w.
  assert (Hread : readWorktreeMetadata (store w) (projectPath featureX)
                    (branchName featureX) = Some m) by (vm_compute; reflexivity).
  assert (Hcreated : createdAt m ≠ "") by discriminate.
  assert (Hsh : is_Some (getShellCommand (host w))) by (eexists; reflexivity).
  pose proof (X6_merging_writes_keep_pr_and_createdAt featureX w m Hread Hcreated) as Hc.
  cbv zeta in Hc. destruct Hc as (Hend & Hrun).
  destruct (Hend (Exited (Some 3))) as (r & Hr & Hpr & _).
  split; [exact Hread |]. split; [exact Hcreated |]. split; [exact Hsh |].
  split; [exists r; split; [exact Hr | exact Hpr] | exact (Hrun Hsh)].
Defined.

Lemma X7_witness :
  let w := worldOf (linuxWith ["/bin/bash"]) emptyStore in
  readWorktreeMetadata (store w) (projectPath featureX) (branchName featureX) = None
  ∧ Forall (λ r, createdAt r = now w ∧
                 (readWorktreeMetadata (store w) (projectPath featureX)
                    (branchName featureX) = None → pr r = None))
      (metadataWrites (since w (runInitScript featureX w).2)).
Proof.
  intros w.
  assert (Hnone : readWorktreeMetadata (store w) (projectPath featureX)
                    (branchName featureX) = None) by (vm_compute; reflexivity).
  pose proof (X7_createdAt_defaults_to_the_current_time featureX w (or_introl Hnone)) as Hc.
  cbv zeta in Hc. destruct Hc as (_ & Hrun).
  split; [exact Hnone | exact Hrun].
Defined.

(** ** What a session touches *)

Section Footprint.
Context {Store : Type} `{MetadataStore Store}.
Implicit Types (w : World Store) (options : InitScriptOptions).

Ltac own :=
  do 2 eexists; split;
  [ reflexivity
  | repeat (apply List.Forall_cons; [by repeat split |]); apply List.Forall_nil ].

Lemma run_own options w :
  ∃ r s d,
    runInitScript options w = (r, after w s d) ∧ Forall (ownEffect options) d.
Proof.
  rewrite run_shape.
  destruct (existsSync _ _); step; [| eexists; own].
  destruct (gate _); step; [eexists; own |].
  destruct (getShellCommand (host w)); step;
    destruct (writeWorktreeMetadata _ _ _ _); try destruct (spawnError _ _);
    step; eexists; own.
Qed.

Lemma dispatch_own options ev w :
  ∃ s d, dispatch options w ev = after w s d ∧ Forall (ownEffect options) d.
Proof.
  rewrite dispatch_shape.
  destruct ev as [content|content|code|message]; step;
    try destruct (writeWorktreeMetadata _ _ _ _); own.
Qed.

(** X8: whatever the child does and however the store answers, a session
    only reads and writes the store under its own (project, branch),
    every record it writes names that branch, every event it publishes
    carries that project and branch, and the child runs in the worktree
    of the invocation. *)
Theorem X8_session_stays_on_its_own_key options (evs : list ChildEvent) w :
  Forall (ownEffect options) (since w (deliver options evs w))
  ∧ Forall (ownEffect options) (since w (session options evs w)).
Proof.
  apply (session_frame options (Forall (ownEffect options))).
  - apply List.Forall_nil.
  - intros d1 d2 H1 H2. by apply Forall_app.
  - apply run_own.
  - apply dispatch_own.
Qed.

Lemma run_store options w :
  store (runInitScript options w).2 = store w
  ∨ ∃ m, writeWorktreeMetadata (store w) (projectPath options) (branchName options) m
         = IOOk (store (runInitScript options w).2).
Proof.
  rewrite run_shape.
  destruct (existsSync _ _); step; [| by left].
  destruct (gate _); step; [by left |].
  destruct (getShellCommand (host w)); step;
    destruct (writeWorktreeMetadata _ _ _ _) eqn:Hwrite;
    try destruct (spawnError _ _); step;
    (by left) || (right; by eexists).
Qed.

Lemma dispatch_store options ev w :
  store (dispatch options w ev) = store w
  ∨ ∃ m, writeWorktreeMetadata (store w) (projectPath options) (branchName options) m
         = IOOk (store (dispatch options w ev)).
Proof.
  rewrite dispatch_shape.
  destruct ev as [content|content|code|message]; step; try by left.
  - destruct (writeWorktreeMetadata _ _ _ _) eqn:Hwrite; (by left) || (right; by eexists).
  - destruct (writeWorktreeMetadata _ _ _ _) eqn:Hwrite; (by left) || (right; by eexists).
Qed.

(** X9: on a store whose writes are local to their key, a whole session
    for (project, branch) leaves the record of every other (project,
    branch) as it was. *)
Theorem X9_other_branches_are_left_alone options (evs : list ChildEvent) w p' b' :
  writesAreLocal Store →
  (p', b') ≠ (projectPath options, branchName options) →
  readWorktreeMetadata (store (session options evs w)) p' b'
  = readWorktreeMetadata (store w) p' b'.
Proof.
  intros Hlocal Hother.
  assert (Hdel : ∀ evs w, readWorktreeMetadata (store (deliver options evs w)) p' b'
                          = readWorktreeMetadata (store w) p' b').
  { clear evs w. induction evs as [|ev evs IH]; intros w; [done |].
    rewrite deliver_cons, IH.
    destruct (dispatch_store options ev w) as [-> | [m Hm]]; [done |].
    by apply (Hlocal _ _ _ _ _ _ _ Hm). }
  assert (Hrun : readWorktreeMetadata (store (runInitScript options w).2) p' b'
                 = readWorktreeMetadata (store w) p' b').
  { destruct (run_store options w) as [-> | [m Hm]]; [done |].
    by apply (Hlocal _ _ _ _ _ _ _ Hm). }
  unfold session. destruct (runInitScript options w) as [[[c|]|e] w1]; simpl in *;
    by rewrite ?Hdel.
Qed.

End Footprint.

Lemma gmap_writesAreLocal : writesAreLocal (gmap (string * string) WorktreeMetadata).
Proof.
  intros s s' p b m p' b' [= <-] Hother. simpl.
  apply lookup_insert_ne. congruence.
Defined.


Lemma X9_witness :
  let other := {| branch := "main"; createdAt := "2024-01-01T00:00:00.000Z";
                  pr := None; initScriptRan := None; initScriptStatus := None;
                  initScriptError := None |} in
  let w := worldOf (linuxWith ["/bin/bash"]) ({[ ("/p", "main") := other ]}
             : gmap (string * string) WorktreeMetadata) in
  writesAreLocal (gmap (string * string) WorktreeMetadata)
  ∧ ("/p", "main") ≠ (projectPath featureX, branchName featureX)
  ∧ readWorktreeMetadata (store (session featureX [Exit (Some 1)] w)) "/p" "main"
    = Some other.
Proof.
  intros other w.
  assert (Hother : ("/p", "main") ≠ (projectPath featureX, branchName featureX))
    by discriminate.
  pose proof (X9_other_branches_are_left_alone featureX [Exit (Some 1)] w "/p" "main"
                gmap_writesAreLocal Hother) as Hc.
  split; [exact gmap_writesAreLocal |]. split; [exact Hother |].
  rewrite Hc. vm_compute. reflexivity.
Defined.

(** ** At most once per branch *)

Section AtMostOnce.
Context {Store : Type} `{MetadataStore Store}.
Implicit Types (w : World Store) (options : InitScriptOptions).




(** X12: when the store rejects the terminal write, the listener stops
    there: the store is unchanged (so the gate stays open), no completion
    event is published, and the I/O error is left as an unhandled
    rejection. *)
Theorem X12_a_rejected_terminal_write_publishes_nothing options w (fin : Ending) e :
  let p := projectPath options in
  let b := branchName options in
  let r := endRecord b (readWorktreeMetadata (store w) p b) (now w) fin in
  writeWorktreeMetadata (store w) p b r = IOError e →
  let w' := dispatch options w (endOf fin) in
  store w' = store w
  ∧ metadataWrites (since w w') = [r]
  ∧ published (since w w') = []
  ∧ rejections (since w w') = [e].
Proof.
  intros p b r Hwrite w'. subst w' r. rewrite dispatch_shape. fold p b.
  destruct fin as [code|message]; simpl endOf; step; simpl endRecord in Hwrite;
    rewrite Hwrite; by rewrite since_after.
Qed.

(** X13: when the store rejects the writes under the key, an invocation
    that gets past the gate throws the I/O error to its caller after
    attempting one write; nothing is spawned, no event is published and
    the store is unchanged. *)
Theorem X13_a_rejected_write_is_thrown_before_any_spawn options w e :
  let p := projectPath options in
  let b := branchName options in
  existsSync (host w) (getInitScriptPath (host w) p) = true →
  gate (readWorktreeMetadata (store w) p b) = false →
  (∀ m, writeWorktreeMetadata (store w) p b m = IOError e) →
  let w' := (runInitScript options w).2 in
  (runInitScript options w).1 = Thrown e
  ∧ store w' = store w
  ∧ length (metadataWrites (since w w')) = 1%nat
  ∧ spawned (since w w') = []
  ∧ published (since w w') = [].
Proof.
  intros p b Hscript Hgate Hreject w'. subst w'.
  rewrite run_shape. fold p b. rewrite Hscript, Hgate.
  destruct (getShellCommand (host w)); step; rewrite Hreject; step;
    by rewrite since_after.
Qed.

End AtMostOnce.



Lemma X12_witness :
  let w := readOnlyWorld in
  let r := endRecord "feature-x" None (now w) (Exited (Some 0)) in
  writeWorktreeMetadata (store w) "/p" "feature-x" r = IOError "EACCES: permission denied"
  ∧ published (since w (dispatch featureX w (endOf (Exited (Some 0))))) = []
  ∧ rejections (since w (dispatch featureX w (endOf (Exited (Some 0)))))
    = ["EACCES: permission denied"].
Proof.
  intros w r.
  assert (Hwrite : writeWorktreeMetadata (store w) (projectPath featureX)
                     (branchName featureX)
                     (endRecord (branchName featureX)
                        (readWorktreeMetadata (store w) (projectPath featureX)
                           (branchName featureX)) (now w) (Exited (Some 0)))
                   = IOError "EACCES: permission denied") by reflexivity.
  pose proof (X12_a_rejected_terminal_write_publishes_nothing featureX w
                (Exited (Some 0)) _ Hwrite) as Hc.
  cbv zeta in Hc. destruct Hc as (_ & _ & Hpublished & Hrejections).
  split; [reflexivity |]. split; [exact Hpublished | exact Hrejections].
Defined.

Lemma X13_witness :
  let w := readOnlyWorld in
  existsSync (host w) (getInitScriptPath (host w) (projectPath featureX)) = true
  ∧ gate (readWorktreeMetadata (store w) (projectPath featureX) (branchName featureX))
    = false
  ∧ (∀ m, writeWorktreeMetadata (store w) (projectPath featureX) (branchName featureX) m
          = IOError "EACCES: permission denied")
  ∧ (runInitScript featureX w).1 = Thrown "EACCES: permission denied".
Proof.
  intros w.
  assert (Hgate : gate (readWorktreeMetadata (store w) (projectPath featureX)
                          (branchName featureX)) = false) by (vm_compute; reflexivity).
  assert (Hreject : ∀ m, writeWorktreeMetadata (store w) (projectPath featureX)
                           (branchName featureX) m
                         = IOError "EACCES: permission denied") by reflexivity.
  pose proof (X13_a_rejected_write_is_thrown_before_any_spawn featureX w _
                eq_refl Hgate Hreject) as Hc.
  cbv zeta in Hc. destruct Hc as (Hthrown & _).
  split; [reflexivity |]. split; [exact Hgate |]. split; [exact Hreject | exact Hthrown].
Defined.

(** ** The init-script routes *)

Ltac hexec :=
  cbv beta iota zeta delta
    [Routes.serve Routes.createGetInitScriptHandler Routes.createPutInitScriptHandler
     Routes.createDeleteInitScriptHandler Routes.tryCatch mbind mret
     Routes.Handler_bind Routes.Handler_ret Routes.destructure Routes.throw
     Routes.act Routes.respond Routes.fsRead Routes.fsUpdate Routes.fsMkdir
     Routes.fsWriteFile Routes.fsRm Routes.getInitScriptPath Routes.body
     Routes.body_projectPath Routes.body_content Routes.requestOf Routes.fs
     Routes.actions Routes.scriptPathOf snd negb app].

Section RouteHandlers.
Context {F : Type} `{Routes.SecureFs F}.
Implicit Types (env : Routes.Env) (f : F) (req : Routes.Request).

Lemma truthy_string s : s ≠ "" → String.eqb s "" = false.
Proof. intros Hs. by apply String.eqb_neq. Qed.

(** X14: a request whose [projectPath] is missing, null, empty, zero or
    false is answered 400 "projectPath is required" by each of the three
    handlers, which then touch neither the file system nor the log. *)
Theorem X14_a_falsy_project_path_is_refused_before_any_file_access
  env f projectPath data :
  Routes.truthy projectPath = false →
  let req := Routes.requestOf projectPath data in
  let refused :=
    {| Routes.fs := f;
       Routes.actions :=
         [Routes.Respond {| Routes.status := 400;
                            Routes.json := Routes.failure "projectPath is required" |}] |} in
  Routes.serve (Routes.createGetInitScriptHandler env req) f = refused
  ∧ Routes.serve (Routes.createPutInitScriptHandler env req) f = refused
  ∧ Routes.serve (Routes.createDeleteInitScriptHandler env req) f = refused.
Proof.
  intros Hfalsy req refused. subst req refused.
  repeat split; hexec; by rewrite Hfalsy.
Qed.

(** X15: for a non-empty string [projectPath], GET answers 200 with
    [success: true] and the script path in every case: [exists: true]
    with the content when the read succeeds, [exists: false] with an
    empty content when the read fails, whatever the reason of the
    failure.  It reads that one file and leaves the file system as it
    is. *)
Theorem X15_get_answers_200_whether_or_not_the_read_succeeds env f s data :
  s ≠ "" →
  let file := Routes.scriptPathOf env s in
  let st := Routes.serve
              (Routes.createGetInitScriptHandler env
                 (Routes.requestOf (Routes.JsString s) data)) f in
  Routes.fs st = f
  ∧ Routes.actions st
    = [Routes.ReadFile file;
       Routes.Respond
         {| Routes.status := 200;
            Routes.json :=
              {| Routes.success := true;
                 Routes.exists_ :=
                   Some (match Routes.readFile f file with
                         | IOOk _ => true
                         | IOError _ => false
                         end);
                 Routes.content :=
                   Some (match Routes.readFile f file with
                         | IOOk text => text
                         | IOError _ => ""
                         end);
                 Routes.path := Some file;
                 Routes.error := None |} |}].
Proof.
  intros Hs file st. subst file st. hexec.
  cbn [Routes.truthy]. rewrite (truthy_string s Hs). hexec.
  by destruct (Routes.readFile f _).
Qed.

(** X16: after a PUT whose [mkdir] and [writeFile] succeed, on a file
    system that reads back what was written, a GET for the same project
    answers [exists: true] with exactly the content that was put, the
    empty string included; both name the file that the runner probes. *)
Theorem X16_get_returns_what_put_wrote env f f1 f2 s text :
  s ≠ "" →
  let file := Routes.scriptPathOf env s in
  Routes.mkdir f (Routes.dirname env file) = IOOk f1 →
  Routes.writeFile f1 file text = IOOk f2 →
  Routes.readFile f2 file = IOOk text →
  let put := Routes.serve
               (Routes.createPutInitScriptHandler env
                  (Routes.requestOf (Routes.JsString s) (Routes.JsString text))) f in
  let get := Routes.serve
               (Routes.createGetInitScriptHandler env
                  (Routes.requestOf (Routes.JsString s) Routes.JsUndefined))
               (Routes.fs put) in
  file = getInitScriptPath (Routes.env_host env) s
  ∧ Routes.fs put = f2
  ∧ Routes.responses (Routes.actions put)
    = [{| Routes.status := 200;
          Routes.json := {| Routes.success := true; Routes.exists_ := None;
                            Routes.content := None; Routes.path := Some file;
                            Routes.error := None |} |}]
  ∧ Routes.responses (Routes.actions get)
    = [{| Routes.status := 200;
          Routes.json := {| Routes.success := true; Routes.exists_ := Some true;
                            Routes.content := Some text; Routes.path := Some file;
                            Routes.error := None |} |}].
Proof.
  intros Hs file Hmkdir Hwrite Hread put get.
  assert (Hput : put = {| Routes.fs := f2;
                          Routes.actions :=
                            [Routes.Mkdir (Routes.dirname env file);
                             Routes.WriteFile file text;
                             Routes.LogInfo ("Wrote init script to " +:+ file);
                             Routes.Respond
                               {| Routes.status := 200;
                                  Routes.json :=
                                    {| Routes.success := true; Routes.exists_ := None;
                                       Routes.content := None; Routes.path := Some file;
                                       Routes.error := None |} |}] |}).
  { subst put file. hexec. cbn [Routes.truthy]. rewrite (truthy_string s Hs). hexec.
    unfold Routes.scriptPathOf in Hmkdir, Hwrite. rewrite Hmkdir. hexec.
    by rewrite Hwrite. }
  split; [reflexivity |]. split; [by rewrite Hput |]. split; [by rewrite Hput |].
  subst get. rewrite Hput. cbn [Routes.fs]. subst file. hexec.
  cbn [Routes.truthy]. rewrite (truthy_string s Hs). hexec.
  unfold Routes.scriptPathOf in Hread. by rewrite Hread.
Qed.

(** X17: PUT checks [projectPath] first and [content] second: with a
    truthy [projectPath], a [content] that is not a string (missing,
    null, a number, an object) is answered 400 "content must be a
    string" and nothing is created or written. *)
Theorem X17_put_refuses_a_content_that_is_not_a_string env f projectPath data :
  Routes.truthy projectPath = true →
  (∀ text, data ≠ Routes.JsString text) →
  Routes.serve
    (Routes.createPutInitScriptHandler env (Routes.requestOf projectPath data)) f
  = {| Routes.fs := f;
       Routes.actions :=
         [Routes.Respond {| Routes.status := 400;
                            Routes.json := Routes.failure "content must be a string" |}] |}.
Proof.
  intros Htruthy Hdata. hexec. rewrite Htruthy. hexec.
  destruct data as [| | | |text|]; try done. by destruct (Hdata text).
Qed.

(** X18: a PUT whose [mkdir] fails does not attempt the write, and a PUT
    whose [writeFile] fails does not log a success: either way the error
    is logged and answered 500 with [getErrorMessage] of it. *)
Theorem X18_put_reports_a_failed_mkdir_or_write_as_500 env f s text e :
  s ≠ "" →
  let file := Routes.scriptPathOf env s in
  let dir := Routes.dirname env file in
  let put := Routes.serve
               (Routes.createPutInitScriptHandler env
                  (Routes.requestOf (Routes.JsString s) (Routes.JsString text))) f in
  let reported :=
    [Routes.LogError e "Write init script failed";
     Routes.Respond {| Routes.status := 500;
                       Routes.json := Routes.failure (Routes.getErrorMessage env e) |}] in
  (Routes.mkdir f dir = IOError e →
   put = {| Routes.fs := f; Routes.actions := Routes.Mkdir dir :: reported |})
  ∧ (∀ f1, Routes.mkdir f dir = IOOk f1 → Routes.writeFile f1 file text = IOError e →
     put = {| Routes.fs := f1;
              Routes.actions := Routes.Mkdir dir :: Routes.WriteFile file text :: reported |}).
Proof.
  intros Hs file dir put reported. subst put reported dir file. split.
  - intros Hmkdir. hexec. cbn [Routes.truthy]. rewrite (truthy_string s Hs). hexec.
    unfold Routes.scriptPathOf in Hmkdir. by rewrite Hmkdir.
  - intros f1 Hmkdir Hwrite. hexec. cbn [Routes.truthy]. rewrite (truthy_string s Hs).
    hexec. unfold Routes.scriptPathOf in Hmkdir, Hwrite. rewrite Hmkdir. hexec.
    by rewrite Hwrite.
Qed.

(** X19: for a non-empty string [projectPath], DELETE answers 200
    [success: true] whatever [rm] does: when [rm] succeeds the file
    system is its result and the deletion is logged; when [rm] fails the
    file system is unchanged and nothing is logged, the failure is
    swallowed. *)
Theorem X19_delete_always_answers_success env f s data :
  s ≠ "" →
  let file := Routes.scriptPathOf env s in
  let st := Routes.serve
              (Routes.createDeleteInitScriptHandler env
                 (Routes.requestOf (Routes.JsString s) data)) f in
  let ok := {| Routes.status := 200;
               Routes.json := {| Routes.success := true; Routes.exists_ := None;
                                 Routes.content := None; Routes.path := None;
                                 Routes.error := None |} |} in
  Routes.responses (Routes.actions st) = [ok]
  ∧ st = match Routes.rm f file with
         | IOOk f' =>
             {| Routes.fs := f';
                Routes.actions :=
                  [Routes.Rm file;
                   Routes.LogInfo ("Deleted init script at " +:+ file);
                   Routes.Respond ok] |}
         | IOError _ =>
             {| Routes.fs := f; Routes.actions := [Routes.Rm file; Routes.Respond ok] |}
         end.
Proof.
  intros Hs file st ok. subst file st ok. hexec.
  cbn [Routes.truthy]. rewrite (truthy_string s Hs). hexec.
  by destruct (Routes.rm f _).
Qed.

Ltac cases :=
  repeat match goal with
         | |- context [Routes.readFile ?f ?p] => destruct (Routes.readFile f p)
         | |- context [Routes.mkdir ?f ?p] => destruct (Routes.mkdir f p)
         | |- context [Routes.writeFile ?f ?p ?c] => destruct (Routes.writeFile f p c)
         | |- context [Routes.rm ?f ?p] => destruct (Routes.rm f p)
         | |- context [Z.eqb ?n 0] => destruct (Z.eqb n 0)
         | |- context [String.eqb ?s ""] => destruct (String.eqb s "")
         | |- _ => progress hexec
         end.

(** X20: every handler answers every request exactly once, whatever the
    body holds (or lacks) and whatever the file system does. *)
Theorem X20_every_request_gets_exactly_one_response env f req :
  length (Routes.responses (Routes.actions
            (Routes.serve (Routes.createGetInitScriptHandler env req) f))) = 1%nat
  ∧ length (Routes.responses (Routes.actions
              (Routes.serve (Routes.createPutInitScriptHandler env req) f))) = 1%nat
  ∧ length (Routes.responses (Routes.actions
              (Routes.serve (Routes.createDeleteInitScriptHandler env req) f))) = 1%nat.
Proof.
  destruct req as [[[projectPath data]|]]; repeat split; hexec; try reflexivity;
    destruct projectPath as [| |[|]|n|s|]; cbn [Routes.truthy]; hexec; try reflexivity;
    try (destruct data as [| | | |text|]; hexec; try reflexivity);
    cases; reflexivity.
Qed.

End RouteHandlers.

Lemma X14_witness :
  Routes.truthy (Routes.JsString "") = false
  ∧ Routes.responses
      (Routes.actions
         (Routes.serve
            (Routes.createPutInitScriptHandler Routes.testEnv
               (Routes.requestOf (Routes.JsString "") (Routes.JsString "npm install")))
            (∅ : gmap string string)))
    = [{| Routes.status := 400;
          Routes.json := Routes.failure "projectPath is required" |}].
Proof.
  assert (Hfalsy : Routes.truthy (Routes.JsString "") = false) by reflexivity.
  pose proof (X14_a_falsy_project_path_is_refused_before_any_file_access Routes.testEnv
                (∅ : gmap string string) (Routes.JsString "")
                (Routes.JsString "npm install") Hfalsy) as Hc.
  cbv zeta in Hc. destruct Hc as (_ & Hput & _).
  split; [exact Hfalsy |]. rewrite Hput. reflexivity.
Defined.

Lemma X15_witness :
  let st := Routes.serve
              (Routes.createGetInitScriptHandler Routes.testEnv
                 (Routes.requestOf (Routes.JsString "/p") Routes.JsUndefined))
              (∅ : gmap string string) in
  "/p" ≠ "" ∧ Routes.fs st = ∅.
Proof.
  intros st.
  assert (Hs : "/p" ≠ "") by discriminate.
  pose proof (X15_get_answers_200_whether_or_not_the_read_succeeds Routes.testEnv
                (∅ : gmap string string) "/p" Routes.JsUndefined Hs) as Hc.
  cbv zeta in Hc. destruct Hc as (Hfs & _).
  split; [exact Hs | exact Hfs].
Defined.

Lemma X16_witness :
  let file := Routes.scriptPathOf Routes.testEnv "/p" in
  let f2 : gmap string string := {[ file := "" ]} in
  let put := Routes.serve
               (Routes.createPutInitScriptHandler Routes.testEnv
                  (Routes.requestOf (Routes.JsString "/p") (Routes.JsString "")))
               (∅ : gmap string string) in
  "/p" ≠ ""
  ∧ Routes.mkdir (∅ : gmap string string) (Routes.dirname Routes.testEnv file) = IOOk ∅
  ∧ Routes.writeFile (∅ : gmap string string) file "" = IOOk f2
  ∧ Routes.readFile f2 file = IOOk ""
  ∧ Routes.fs put = f2.
Proof.
  intros file f2 put.
  assert (Hs : "/p" ≠ "") by discriminate.
  assert (Hmkdir : Routes.mkdir (∅ : gmap string string)
                     (Routes.dirname Routes.testEnv file) = IOOk ∅) by reflexivity.
  assert (Hwrite : Routes.writeFile (∅ : gmap string string) file "" = IOOk f2)
    by reflexivity.
  assert (Hread : Routes.readFile f2 file = IOOk "") by (vm_compute; reflexivity).
  pose proof (X16_get_returns_what_put_wrote Routes.testEnv ∅ ∅ f2 "/p" ""
                Hs Hmkdir Hwrite Hread) as Hc.
  cbv zeta in Hc. destruct Hc as (_ & Hput & _).
  split; [exact Hs |]. split; [exact Hmkdir |]. split; [exact Hwrite |].
  split; [exact Hread | exact Hput].
Defined.

Lemma X17_witness :
  Routes.truthy (Routes.JsString "/p") = true
  ∧ (∀ text, Routes.JsNull ≠ Routes.JsString text)
  ∧ Routes.fs
      (Routes.serve
         (Routes.createPutInitScriptHandler Routes.testEnv
            (Routes.requestOf (Routes.JsString "/p") Routes.JsNull))
         (∅ : gmap string string))
    = ∅.
Proof.
  assert (Htruthy : Routes.truthy (Routes.JsString "/p") = true) by reflexivity.
  assert (Hdata : ∀ text, Routes.JsNull ≠ Routes.JsString text)
    by (intros text; discriminate).
  pose proof (X17_put_refuses_a_content_that_is_not_a_string Routes.testEnv
                (∅ : gmap string string) (Routes.JsString "/p") Routes.JsNull
                Htruthy Hdata) as Hc.
  split; [exact Htruthy |]. split; [exact Hdata |]. rewrite Hc. reflexivity.
Defined.

Lemma X18_witness :
  let f := {| Routes.denied := () |} in
  let file := Routes.scriptPathOf Routes.testEnv "/p" in
  "/p" ≠ ""
  ∧ Routes.mkdir f (Routes.dirname Routes.testEnv file) = IOError "Path not allowed"
  ∧ Routes.responses
      (Routes.actions
         (Routes.serve
            (Routes.createPutInitScriptHandler Routes.testEnv
               (Routes.requestOf (Routes.JsString "/p") (Routes.JsString "npm ci"))) f))
    = [{| Routes.status := 500; Routes.json := Routes.failure "Path not allowed" |}].
Proof.
  intros f file.
  assert (Hs : "/p" ≠ "") by discriminate.
  assert (Hmkdir : Routes.mkdir f (Routes.dirname Routes.testEnv file)
                   = IOError "Path not allowed") by reflexivity.
  pose proof (X18_put_reports_a_failed_mkdir_or_write_as_500 Routes.testEnv f "/p"
                "npm ci" "Path not allowed" Hs) as Hc.
  cbv zeta in Hc. destruct Hc as (Hfailed & _).
  split; [exact Hs |]. split; [exact Hmkdir |].
  rewrite (Hfailed Hmkdir). reflexivity.
Defined.

Lemma X19_witness :
  let f := {| Routes.denied := () |} in
  "/p" ≠ ""
  ∧ Routes.responses
      (Routes.actions
         (Routes.serve
            (Routes.createDeleteInitScriptHandler Routes.testEnv
               (Routes.requestOf (Routes.JsString "/p") Routes.JsUndefined)) f))
    = [{| Routes.status := 200;
          Routes.json := {| Routes.success := true; Routes.exists_ := None;
                            Routes.content := None; Routes.path := None;
                            Routes.error := None |} |}].
Proof.
  intros f.
  assert (Hs : "/p" ≠ "") by discriminate.
  pose proof (X19_delete_always_answers_success Routes.testEnv f "/p"
                Routes.JsUndefined Hs) as Hc.
  cbv zeta in Hc. destruct Hc as (Hok & _).
  split; [exact Hs | exact Hok].
Defined.

(** ** The login view *)

Section LoginView.
Implicit Types (verify : nat → Login.VerifyOutcome) (setupComplete : bool).

Ltac answers verify :=
  repeat match goal with
         | Heq : verify ?n = _ |- context [verify ?n] => rewrite Heq
         | |- context [verify ?n] =>
             lazymatch n with
             | context [verify] => fail
             | _ => destruct (verify n) eqn:?
             end
         | |- _ => progress cbn
         end.

(** X21: the session check calls [verifySession] at least once and at
    most five times: once more than the number of calls that failed
    before the first answer, and never a sixth time. *)
Theorem X21_session_check_makes_at_most_five_attempts verify setupComplete :
  let k := Login.failuresBeforeAnswer verify Login.maxRetries 0 in
  Login.verifications (Login.checkExistingSession verify setupComplete)
  = Nat.min (Datatypes.S k) 5
  ∧ (1 ≤ Login.verifications (Login.checkExistingSession verify setupComplete) ≤ 5)%nat.
Proof.
  unfold Login.checkExistingSession, Login.maxRetries.
  answers verify; (split; [reflexivity | lia]).
Qed.

(** X22: between failed attempts the check waits 500 ms doubled each
    time, and not after the fifth attempt: the waits are 500, 1000, 2000
    and 4000 ms at most, 7500 ms in total at most, and a wait of 8000 ms
    never happens. *)
Theorem X22_backoff_doubles_from_500ms_and_stops_at_4000ms verify setupComplete :
  let k := Login.failuresBeforeAnswer verify Login.maxRetries 0 in
  let waits := Login.delays (Login.checkExistingSession verify setupComplete) in
  waits = map (λ i, Login.baseDelay * 2 ^ Z.of_nat i) (seq 0 (Nat.min k 4))
  ∧ foldr Z.add 0 waits ≤ 7500
  ∧ ¬ In 8000 waits.
Proof.
  unfold Login.checkExistingSession, Login.maxRetries.
  answers verify; (split; [reflexivity | split; [by vm_compute | vm_compute; intuition discriminate]]).
Qed.

(** X23: the check leaves the login view exactly when the first attempt
    that gets an answer is told the session is valid: then it marks the
    user authenticated and navigates once, to [/] when setup is complete
    and to [/setup] otherwise, and never reveals the form.  In every
    other case (session invalid, or five failed attempts) it navigates
    nowhere, does not authenticate, and reveals the form. *)
Theorem X23_session_check_navigates_only_on_a_valid_session verify setupComplete :
  let k := Login.failuresBeforeAnswer verify Login.maxRetries 0 in
  let valid := match verify k with
               | Login.SessionValid => (k <? 5)%nat
               | _ => false
               end in
  let done := Login.checkExistingSession verify setupComplete in
  Login.navigations done = (if valid then [Login.destination setupComplete] else [])
  ∧ Login.authenticated done = valid
  ∧ Login.showsForm done = negb valid.
Proof.
  unfold Login.checkExistingSession, Login.maxRetries.
  answers verify; by repeat split.
Qed.

(** X24: submitting the form calls [login] once, with the trimmed key,
    and always ends by clearing the loading flag.  It authenticates and
    navigates only when the answer says [success]; any other answer, or
    a failed call, sets an error message that is never empty (an absent
    or empty [error] becomes "Invalid API key") and navigates nowhere. *)
Theorem X24_submit_navigates_only_on_success_and_always_stops_loading
  (trim : string → string) (login : string → Login.LoginOutcome) setupComplete apiKey :
  let success := match login (trim apiKey) with
                 | Login.LoginResult true _ => true
                 | _ => false
                 end in
  let done := Login.handleSubmit trim login setupComplete apiKey in
  last done = Some (Login.SetIsLoading false)
  ∧ List.filter (λ a, match a with Login.CallLogin _ => true | _ => false end) done
    = [Login.CallLogin (trim apiKey)]
  ∧ Login.navigations done = (if success then [Login.destination setupComplete] else [])
  ∧ Login.authenticated done = success
  ∧ (success = false →
     ∃ message, In (Login.SetError (Some message)) done ∧ message ≠ "").
Proof.
  unfold Login.handleSubmit.
  destruct (login (trim apiKey)) as [[|] error|]; cbn; repeat split; try done.
  - intros _. exists (orElse error "Invalid API key"). split; [tauto |].
    by destruct error as [[|a s]|].
  - intros _. exists "Failed to connect to server". split; [tauto | done].
Qed.

End LoginView.

Lemma X24_witness :
  let login := λ _ : string, Login.LoginResult false (Some "") in
  let done := Login.handleSubmit (λ s, s) login true "secret" in
  In (Login.SetError (Some "Invalid API key")) done
  ∧ ∃ message, In (Login.SetError (Some message)) done ∧ message ≠ "".
Proof.
  intros login done.
  pose proof (X24_submit_navigates_only_on_success_and_always_stops_loading
                (λ s, s) login true "secret") as Hc.
  cbv zeta in Hc. destruct Hc as (_ & _ & _ & _ & Hmessage).
  split; [vm_compute; tauto | exact (Hmessage eq_refl)].
Defined.

(** ** The debounced save of the settings editor *)

Section SettingsEditor.
Import Settings.
Implicit Types (v : View) (t : Timer) (l : list Timer) (ev : Event)
  (project : option string).

Lemma cleared_In ref l t : In t (cleared ref l) → In t l.
Proof.
  destruct ref as [[|n]|]; simpl; try done.
  intros Hin. by apply List.filter_In in Hin as [Hin _].
Qed.

Lemma filter_ids_NoDup (q : Timer → bool) l :
  NoDup (map timerId l) → NoDup (map timerId (List.filter q l)).
Proof.
  induction l as [|t l IH]; simpl; [done |].
  intros Hnd. apply NoDup_cons in Hnd as [Hnotin Hnd].
  destruct (q t); simpl; [| by apply IH].
  apply NoDup_cons. split; [| by apply IH].
  intros Hin. apply Hnotin.
  apply list_elem_of_In, List.in_map_iff in Hin as (t' & Heq & Hin).
  apply List.filter_In in Hin as [Hin _].
  apply list_elem_of_In, List.in_map_iff. by exists t'.
Qed.

Lemma cleared_NoDup ref l :
  NoDup (map timerId l) → NoDup (map timerId (cleared ref l)).
Proof. destruct ref as [[|n]|]; simpl; try done. apply filter_ids_NoDup. Qed.

Lemma cleared_Forall (P : Timer → Prop) ref l : Forall P l → Forall P (cleared ref l).
Proof.
  intros Hall. apply List.Forall_forall. intros t Hin.
  apply cleared_In in Hin. by apply (proj1 (List.Forall_forall P l) Hall).
Qed.

Lemma cleared_save_commute ref l :
  List.filter isSave (cleared ref l) = cleared ref (List.filter isSave l).
Proof.
  destruct ref as [[|n]|]; simpl; try done.
  induction l as [|t l IH]; simpl; [done |].
  destruct (isSave t) eqn:Hsave, (negb (timerId t =? Datatypes.S n)%nat) eqn:Hid;
    simpl; rewrite ?Hsave, ?Hid, ?IH; done.
Qed.

(** Clearing the ref that tracks them removes every pending save timer. *)
Lemma cleared_tracked ref l :
  Forall (λ t, ref = Some (timerId t) ∧ timerId t ≠ O) (List.filter isSave l) →
  List.filter isSave (cleared ref l) = [].
Proof.
  rewrite cleared_save_commute. generalize (List.filter isSave l). clear l.
  intros l Hall. induction Hall as [|t l [Href Hpos] _ IH]; [by destruct ref as [[|n]|] |].
  subst ref. destruct (timerId t) as [|n] eqn:Hid; [done |]. simpl in *.
  rewrite Hid, Nat.eqb_refl. simpl. exact IH.
Qed.

Lemma cleared_none ref l :
  List.filter isSave l = [] → List.filter isSave (cleared ref l) = [].
Proof. intros Hnone. rewrite cleared_save_commute, Hnone. by destruct ref as [[|n]|]. Qed.

Lemma clearIfSet_timers ref v :
  clearIfSet ref v = withTimers (cleared ref (timers v)) v.
Proof. destruct v, ref as [[|n]|]; reflexivity. Qed.

Lemma handleContentChange_eq value v :
  handleContentChange value v
  = {| clock := clock v; nextTimer := Datatypes.S (nextTimer v);
       timers := cleared (savedTimeoutRef v) (cleared (saveTimeoutRef v) (timers v))
                 ++ [{| timerId := nextTimer v; due := clock v + 1000;
                        task := SaveScript value |}];
       saveTimeoutRef := Some (nextTimer v); savedTimeoutRef := savedTimeoutRef v;
       scriptContent := value; isSaving := isSaving v; showSaved := false;
       inFlight := inFlight v; outputs := outputs v |}.
Proof.
  unfold handleContentChange. rewrite !clearIfSet_timers. by destruct v.
Qed.

Lemma removeTimer_In id l t : In t (removeTimer id l) → In t l.
Proof.
  induction l as [|t' l IH]; simpl; [done |].
  destruct (timerId t' =? id)%nat; simpl; tauto.
Qed.

Lemma removeTimer_NoDup id l :
  NoDup (map timerId l) → NoDup (map timerId (removeTimer id l)).
Proof.
  induction l as [|t l IH]; simpl; [done |].
  intros Hnd. apply NoDup_cons in Hnd as [Hnotin Hnd].
  destruct (timerId t =? id)%nat; [done |]. simpl.
  apply NoDup_cons. split; [| by apply IH].
  intros Hin. apply Hnotin.
  apply list_elem_of_In, List.in_map_iff in Hin as (t' & Heq & Hin).
  apply removeTimer_In in Hin.
  apply list_elem_of_In, List.in_map_iff. by exists t'.
Qed.

(** Firing a timer that is not a save timer leaves the save timers. *)
Lemma removeTimer_other id l t :
  List.find (λ t, (timerId t =? id)%nat) l = Some t → isSave t = false →
  List.filter isSave (removeTimer id l) = List.filter isSave l.
Proof.
  induction l as [|t' l IH]; simpl; [done |].
  destruct (timerId t' =? id)%nat.
  - intros [= ->] Hsave. by rewrite Hsave.
  - intros Hfind Hsave. simpl. by rewrite (IH Hfind Hsave).
Qed.

Lemma find_unique id l t :
  NoDup (map timerId l) → In t l → timerId t = id →
  List.find (λ t, (timerId t =? id)%nat) l = Some t.
Proof.
  induction l as [|t' l IH]; simpl; [done |].
  intros Hnd Hin Hid. apply NoDup_cons in Hnd as [Hnotin Hnd].
  destruct Hin as [-> | Hin].
  - by rewrite Hid, Nat.eqb_refl.
  - destruct (timerId t' =? id)%nat eqn:Heq; [| by apply IH].
    apply Nat.eqb_eq in Heq. destruct Hnotin.
    apply list_elem_of_In, List.in_map_iff. exists t. split; [congruence | done].
Qed.

(** The invariant only looks at the timers, the save ref and the next id. *)
Lemma invariant_sub v v' :
  (∀ t, In t (timers v') → In t (timers v)) →
  NoDup (map timerId (timers v')) →
  saveTimeoutRef v' = saveTimeoutRef v →
  nextTimer v' = nextTimer v →
  invariant v → invariant v'.
Proof.
  intros Hsub Hnd Href Hnext (Htracked & Hpos & Hfresh & _).
  unfold invariant, tracked, saveTimers in *. rewrite Href, Hnext.
  split; [| split; [done | split; [| done]]].
  - apply List.Forall_forall. intros t Hin.
    apply List.filter_In in Hin as [Hin Hsave].
    apply (proj1 (List.Forall_forall _ _) Htracked).
    apply List.filter_In. split; [by apply Hsub | done].
  - apply List.Forall_forall. intros t Hin.
    apply (proj1 (List.Forall_forall _ _) Hfresh). by apply Hsub.
Qed.

Lemma fresh_id_absent (n : nat) l :
  Forall (λ t, (timerId t < n)%nat) l → n ∉ map timerId l.
Proof.
  intros Hfresh Hin.
  apply list_elem_of_In, List.in_map_iff in Hin as (t & Heq & Hin).
  apply (proj1 (List.Forall_forall _ _) Hfresh) in Hin. lia.
Qed.

(** Adding a timer with the next id keeps ids fresh and distinct. *)
Lemma push_timer l (n : nat) (d : Z) (tk : Task) :
  Forall (λ t, (timerId t < n)%nat) l →
  NoDup (map timerId l) →
  Forall (λ t, (timerId t < Datatypes.S n)%nat)
    (l ++ [{| timerId := n; due := d; task := tk |}])
  ∧ NoDup (map timerId (l ++ [{| timerId := n; due := d; task := tk |}])).
Proof.
  intros Hfresh Hnd. split.
  - apply Forall_app. split.
    + eapply List.Forall_impl; [| exact Hfresh]. simpl. intros t Ht. lia.
    + apply List.Forall_cons; [simpl; lia | apply List.Forall_nil].
  - rewrite map_app. simpl. apply NoDup_app. split; [done |]. split.
    + intros x Hx Hin. apply list_elem_of_singleton in Hin as ->.
      by apply (fresh_id_absent n l Hfresh).
    + apply NoDup_singleton.
Qed.

Lemma edit_keeps_one_save_timer value v :
  invariant v →
  invariant (handleContentChange value v)
  ∧ saveTimers (handleContentChange value v)
    = [{| timerId := nextTimer v; due := clock v + 1000; task := SaveScript value |}].
Proof.
  intros (Htracked & Hpos & Hfresh & Hnd).
  rewrite handleContentChange_eq.
  set (old := cleared (savedTimeoutRef v) (cleared (saveTimeoutRef v) (timers v))).
  assert (Hnone : List.filter isSave old = [])
    by (apply cleared_none, cleared_tracked, Htracked).
  assert (Hsaves : List.filter isSave
                     (old ++ [{| timerId := nextTimer v; due := clock v + 1000;
                                 task := SaveScript value |}])
                   = [{| timerId := nextTimer v; due := clock v + 1000;
                         task := SaveScript value |}])
    by (by rewrite List.filter_app, Hnone).
  destruct (push_timer old (nextTimer v) (clock v + 1000) (SaveScript value))
    as [Hfresh' Hnd'].
  { by do 2 apply cleared_Forall. }
  { by do 2 apply cleared_NoDup. }
  split; [| exact Hsaves].
  unfold invariant, tracked, saveTimers. simpl. rewrite Hsaves.
  split; [| done].
  apply List.Forall_cons; [done | apply List.Forall_nil].
Qed.

Lemma runTask_frame project tk v :
  timers (runTask project tk v) = timers v
  ∧ saveTimeoutRef (runTask project tk v) = saveTimeoutRef v
  ∧ nextTimer (runTask project tk v) = nextTimer v
  ∧ clock (runTask project tk v) = clock v.
Proof. destruct v, tk, project as [[|a path]|]; by repeat split. Qed.

Lemma step_invariant project v ev : invariant v → invariant (step project v ev).
Proof.
  intros Hinv. destruct ev as [value|ms|id|outcome|]; simpl.
  - by apply edit_keeps_one_save_timer.
  - by apply (invariant_sub v); [| destruct Hinv as (_ & _ & _ & Hnd) |..].
  - unfold fire.
    destruct (List.find _ (timers v)) as [t|]; [| done].
    destruct (due t <=? clock v); [| done].
    destruct (runTask_frame project (task t) (withTimers (removeTimer id (timers v)) v))
      as (Htimers & Href & Hnext & _).
    apply (invariant_sub v); rewrite ?Htimers, ?Href, ?Hnext; try by destruct v.
    + destruct v; simpl. apply removeTimer_In.
    + destruct Hinv as (_ & _ & _ & Hnd). destruct v; simpl in *.
      by apply removeTimer_NoDup.
  - unfold settle. destruct (inFlight v) as [|n] eqn:Hflight; [done |].
    destruct outcome as [|error|].
    + destruct Hinv as (Htracked & Hpos & Hfresh & Hnd).
      destruct (push_timer (timers v) (nextTimer v) (clock v + 2000) HideSaved Hfresh Hnd)
        as [Hfresh' Hnd'].
      destruct v; unfold invariant, tracked, saveTimers in *; simpl in *.
      rewrite List.filter_app. simpl. by rewrite app_nil_r.
    + apply (invariant_sub v); try by destruct v.
      by destruct Hinv as (_ & _ & _ & Hnd), v.
    + apply (invariant_sub v); try by destruct v.
      by destruct Hinv as (_ & _ & _ & Hnd), v.
  - unfold unmount. rewrite !clearIfSet_timers.
    apply (invariant_sub v); try by destruct v.
    + destruct v; simpl. intros t Hin. by do 2 apply cleared_In in Hin.
    + destruct Hinv as (_ & _ & _ & Hnd). destruct v; simpl in *.
      by do 2 apply cleared_NoDup.
Qed.

Lemma run_invariant project evs : ∀ v, invariant v → invariant (run project evs v).
Proof.
  induction evs as [|ev evs IH]; intros v Hinv; [done |].
  apply IH. by apply step_invariant.
Qed.

Lemma mounted_invariant : invariant mounted.
Proof.
  unfold invariant, tracked, saveTimers; simpl.
  repeat split; try done; try apply List.Forall_nil. apply NoDup_nil_2.
Qed.

Lemma run_app project evs1 evs2 v :
  run project (evs1 ++ evs2) v = run project evs2 (run project evs1 v).
Proof. apply fold_left_app. Qed.

Lemma waited_nonneg evs : 0 ≤ waited evs.
Proof.
  induction evs as [|ev evs IH]; simpl; [done |].
  destruct ev; lia.
Qed.

Lemma settle_frame outcome v :
  saveTimers (settle outcome v) = saveTimers v
  ∧ puts (settle outcome v) = puts v
  ∧ clock (settle outcome v) = clock v
  ∧ saveTimeoutRef (settle outcome v) = saveTimeoutRef v.
Proof.
  unfold settle, saveTimers, puts. destruct (inFlight v) as [|n]; [done |].
  destruct v, outcome as [|error|]; simpl; rewrite ?List.filter_app, ?omap_app; simpl;
    rewrite ?app_nil_r; done.
Qed.

(** A timer that fires while no save timer is due is not a save timer:
    the save timers and what was sent stay as they are. *)
Lemma fire_other project id v :
  Forall (λ t, clock v < due t) (saveTimers v) →
  saveTimers (fire project id v) = saveTimers v
  ∧ puts (fire project id v) = puts v
  ∧ clock (fire project id v) = clock v
  ∧ saveTimeoutRef (fire project id v) = saveTimeoutRef v.
Proof.
  intros Hlater. unfold fire.
  destruct (List.find _ (timers v)) as [t|] eqn:Hfind; [| done].
  destruct (due t <=? clock v) eqn:Hdue; [| done].
  apply Z.leb_le in Hdue.
  assert (Hsave : isSave t = false).
  { destruct (isSave t) eqn:Hsave; [| done].
    apply List.find_some in Hfind as [Hin _].
    assert (Hin' : In t (saveTimers v)) by (apply List.filter_In; by split).
    apply (proj1 (List.Forall_forall _ _) Hlater) in Hin'. lia. }
  pose proof (removeTimer_other id (timers v) t Hfind Hsave) as Hsame.
  unfold isSave in Hsave. destruct (task t); [done |].
  destruct v; unfold saveTimers, puts in *; simpl in *. by rewrite Hsame.
Qed.

Lemma idle_step project v ev t :
  saveTimers v = [t] → idle ev = true → clock v + waitOf ev < due t →
  saveTimers (step project v ev) = [t]
  ∧ puts (step project v ev) = puts v
  ∧ clock (step project v ev) = clock v + waitOf ev
  ∧ saveTimeoutRef (step project v ev) = saveTimeoutRef v.
Proof.
  intros Hone Hidle Hearly. destruct ev as [value|ms|id|outcome|]; try done; simpl in *.
  - destruct (fire_other project id v) as (Hs & Hp & Hc & Hr).
    { rewrite Hone. apply List.Forall_cons; [lia | apply List.Forall_nil]. }
    rewrite Hs, Hp, Hc, Hr, Z.add_0_r. done.
  - destruct (settle_frame outcome v) as (Hs & Hp & Hc & Hr).
    rewrite Hs, Hp, Hc, Hr, Z.add_0_r. done.
Qed.

Lemma quiet_run project evs :
  ∀ v t,
    saveTimers v = [t] → forallb idle evs = true → clock v + waited evs < due t →
    saveTimers (run project evs v) = [t]
    ∧ puts (run project evs v) = puts v
    ∧ clock (run project evs v) = clock v + waited evs
    ∧ saveTimeoutRef (run project evs v) = saveTimeoutRef v.
Proof.
  induction evs as [|ev evs IH]; intros v t Hone Hidle Hearly; simpl in *.
  - by rewrite Z.add_0_r.
  - apply andb_prop in Hidle as [Hev Hidle].
    pose proof (waited_nonneg evs) as Hnn.
    assert (Hwait : waited (ev :: evs) = waitOf ev + waited evs) by by destruct ev.
    simpl in Hwait. rewrite Hwait in Hearly.
    destruct (idle_step project v ev t Hone Hev) as (Hs & Hp & Hc & Hr); [lia |].
    destruct (IH (step project v ev) t Hs Hidle) as (Hs' & Hp' & Hc' & Hr'); [lia |].
    change (fold_left (step project) evs (step project v ev))
      with (run project evs (step project v ev)).
    rewrite Hs', Hp', Hc', Hr', Hp, Hc, Hr, Hwait. repeat split; try done. lia.
Qed.

(** A change followed by a quiet gap sends nothing. *)
Lemma burst_run project burst :
  ∀ v,
    invariant v → Forall (λ c, quiet 1000 c.2 = true) burst →
    invariant (run project (burstEvents burst) v)
    ∧ puts (run project (burstEvents burst) v) = puts v.
Proof.
  induction burst as [|[value gap] burst IH]; intros v Hinv Hquiet; [done |].
  apply Forall_cons in Hquiet as [Hgap Hquiet]. simpl in Hgap.
  apply andb_prop in Hgap as [Hidle Hshort]. apply Z.ltb_lt in Hshort.
  unfold burstEvents. simpl. rewrite run_app.
  fold (burstEvents burst).
  destruct (edit_keeps_one_save_timer value v Hinv) as [Hinv1 Hone].
  destruct (quiet_run project gap (handleContentChange value v) _ Hone Hidle)
    as (_ & Hputs & _).
  { rewrite handleContentChange_eq. simpl. lia. }
  destruct (IH (run project gap (handleContentChange value v))) as [Hinv2 Hputs2];
    [by apply run_invariant | done |].
  split; [done |]. rewrite Hputs2, Hputs, handleContentChange_eq. done.
Qed.

Lemma removeTimer_save id l t :
  List.find (λ t, (timerId t =? id)%nat) l = Some t →
  List.filter isSave l = [t] →
  List.filter isSave (removeTimer id l) = [].
Proof.
  induction l as [|t' l IH]; simpl; [done |].
  destruct (timerId t' =? id)%nat eqn:Hid.
  - intros [= ->] Hone. destruct (isSave t) eqn:Hsave; [by injection Hone |].
    exfalso. assert (Hin : In t (List.filter isSave l)) by (rewrite Hone; by left).
    apply List.filter_In in Hin as [_ Hsave']. congruence.
  - intros Hfind Hone. simpl. destruct (isSave t') eqn:Hsave.
    + injection Hone as -> _. apply List.find_some in Hfind as [_ Hmatch]. congruence.
    + by apply IH.
Qed.

(** X25: changes that follow one another within a second are saved once.
    From any state the component can reach, with a project selected,
    after a burst of changes (each followed by less than 1000 ms in
    which timers may fire and PUTs may be answered) and a last change,
    nothing has been sent during the burst; one second after the last
    change the timer that [saveTimeoutRef] holds is due, firing it sends
    one PUT with the content of the last change, and no save timer is
    left. *)
Theorem X25_a_burst_of_changes_is_saved_once_with_the_last_content
  project path (before : list Event) (burst : list (string * list Event)) (last : string) :
  project = Some path →
  path ≠ "" →
  Forall (λ c, quiet 1000 c.2 = true) burst →
  let v0 := run project before mounted in
  let v1 := run project (burstEvents burst ++ [Edit last; Wait 1000]) v0 in
  puts v1 = puts v0
  ∧ ∃ id, saveTimeoutRef v1 = Some id
          ∧ puts (step project v1 (Fire id)) = (puts v0 ++ [last])%list
          ∧ saveTimers (step project v1 (Fire id)) = [].
Proof.
  intros -> Hpath Hquiet v0 v1.
  assert (Hinv0 : invariant v0) by apply run_invariant, mounted_invariant.
  destruct (burst_run (Some path) burst v0 Hinv0 Hquiet) as [Hinv Hputs].
  set (vb := run (Some path) (burstEvents burst) v0) in *.
  destruct (edit_keeps_one_save_timer last vb Hinv) as [Hinv2 Hone].
  set (t := {| timerId := nextTimer vb; due := clock vb + 1000; task := SaveScript last |})
    in *.
  assert (Hv1 : v1 = step (Some path) (handleContentChange last vb) (Wait 1000)).
  { subst v1 vb. by rewrite run_app. }
  assert (Htimers : timers v1 = timers (handleContentChange last vb))
    by (rewrite Hv1; by destruct (handleContentChange last vb)).
  assert (Hclock : clock v1 = clock vb + 1000)
    by (rewrite Hv1, handleContentChange_eq; reflexivity).
  assert (Href : saveTimeoutRef v1 = Some (nextTimer vb))
    by (rewrite Hv1, handleContentChange_eq; reflexivity).
  assert (Hputs1 : puts v1 = puts v0)
    by (rewrite Hv1, handleContentChange_eq, <- Hputs; reflexivity).
  split; [exact Hputs1 |]. exists (nextTimer vb). split; [exact Href |].
  assert (Hin : In t (timers v1)).
  { rewrite Htimers. assert (Hin : In t (saveTimers (handleContentChange last vb)))
      by (rewrite Hone; by left).
    by apply List.filter_In in Hin as [Hin _]. }
  assert (Hfind : List.find (λ t, (timerId t =? nextTimer vb)%nat) (timers v1) = Some t).
  { apply find_unique; [| done | done].
    rewrite Htimers. by destruct Hinv2 as (_ & _ & _ & Hnd). }
  assert (Hgone : List.filter isSave (removeTimer (nextTimer vb) (timers v1)) = []).
  { apply (removeTimer_save _ _ t Hfind). rewrite Htimers. exact Hone. }
  simpl step. unfold fire. rewrite Hfind, Hclock.
  assert (Hdue : (due t <=? clock vb + 1000) = true) by (apply Z.leb_le; simpl; lia).
  rewrite Hdue. simpl task. unfold runTask, saveScript.
  destruct path as [|a path]; [done |].
  unfold puts, saveTimers in *. destruct v1; simpl in *.
  rewrite omap_app, Hputs1. by split.
Qed.

Lemma no_save_timer_step project v ev :
  saveTimers v = [] → isEdit ev = false →
  saveTimers (step project v ev) = [] ∧ puts (step project v ev) = puts v.
Proof.
  intros Hnone Hedit. destruct ev as [value|ms|id|outcome|]; try done; simpl.
  - destruct (fire_other project id v) as (Hs & Hp & _).
    { rewrite Hnone. apply List.Forall_nil. }
    by rewrite Hs, Hp.
  - destruct (settle_frame outcome v) as (Hs & Hp & _). by rewrite Hs, Hp.
  - unfold unmount. rewrite !clearIfSet_timers.
    destruct v; unfold saveTimers, puts in *; simpl in *.
    split; [| done]. by do 2 apply cleared_none.
Qed.

Lemma no_save_timer_run project evs :
  ∀ v, saveTimers v = [] → forallb (λ ev, negb (isEdit ev)) evs = true →
       puts (run project evs v) = puts v.
Proof.
  induction evs as [|ev evs IH]; intros v Hnone Hedits; [done |]. simpl in *.
  apply andb_prop in Hedits as [Hev Hedits]. apply negb_true_iff in Hev.
  destruct (no_save_timer_step project v ev Hnone Hev) as [Hnone' Hputs].
  change (fold_left (step project) evs (step project v ev))
    with (run project evs (step project v ev)).
  by rewrite (IH _ Hnone' Hedits).
Qed.

(** X26: a change is lost when the component unmounts before the save
    timer fires: from any state the component can reach, after a change,
    less than 1000 ms without another change, and the unmount, nothing is
    ever sent for that change, whatever fires or is answered later. *)
Theorem X26_unmounting_within_a_second_discards_the_change
  project (before gap later : list Event) (value : string) :
  quiet 1000 gap = true →
  forallb (λ ev, negb (isEdit ev)) later = true →
  let v0 := run project before mounted in
  puts (run project (Edit value :: gap ++ Unmount :: later) v0) = puts v0.
Proof.
  intros Hgap Hlater v0.
  apply andb_prop in Hgap as [Hidle Hshort]. apply Z.ltb_lt in Hshort.
  assert (Hinv0 : invariant v0) by apply run_invariant, mounted_invariant.
  destruct (edit_keeps_one_save_timer value v0 Hinv0) as [Hinv1 Hone].
  destruct (quiet_run project gap (handleContentChange value v0) _ Hone Hidle)
    as (Hone2 & Hputs2 & _).
  { rewrite handleContentChange_eq. simpl. lia. }
  set (v2 := run project gap (handleContentChange value v0)) in *.
  assert (Hinv2 : invariant v2) by by apply run_invariant.
  assert (Hnone : saveTimers (unmount v2) = []).
  { unfold unmount. rewrite !clearIfSet_timers.
    destruct Hinv2 as (Htracked & _). unfold tracked, saveTimers in *.
    destruct v2; simpl in *. by apply cleared_none, cleared_tracked. }
  change (Edit value :: gap ++ Unmount :: later)
    with ([Edit value] ++ gap ++ [Unmount] ++ later)%list.
  rewrite !run_app. simpl run at 3. simpl run at 2. fold v2.
  rewrite (no_save_timer_run project later _ Hnone Hlater).
  assert (Hun : puts (unmount v2) = puts v2).
  { unfold unmount. rewrite !clearIfSet_timers. by destruct v2. }
  change (run project [Unmount] v2) with (unmount v2).
  rewrite Hun, Hputs2, handleContentChange_eq. done.
Qed.

End SettingsEditor.

Lemma X25_witness :
  let burst := [("npm i", [Settings.Wait 300]); ("npm in", [Settings.Wait 999])] in
  let v1 := Settings.run (Some "/p")
              (Settings.burstEvents burst
               ++ [Settings.Edit "npm install"; Settings.Wait 1000])
              Settings.mounted in
  Some "/p" = Some "/p"
  ∧ "/p" ≠ ""
  ∧ Forall (λ c, Settings.quiet 1000 c.2 = true) burst
  ∧ Settings.puts v1 = []
  ∧ ∃ id, Settings.puts (Settings.step (Some "/p") v1 (Settings.Fire id))
          = ["npm install"].
Proof.
  intros burst v1.
  assert (Hpath : "/p" ≠ "") by discriminate.
  assert (Hquiet : Forall (λ c, Settings.quiet 1000 c.2 = true) burst)
    by (repeat (apply List.Forall_cons; [reflexivity |]); apply List.Forall_nil).
  pose proof (X25_a_burst_of_changes_is_saved_once_with_the_last_content
                (Some "/p") "/p" [] burst "npm install" eq_refl Hpath Hquiet) as Hc.
  cbv zeta in Hc. destruct Hc as (Hputs & id & _ & Hsent & _).
  split; [reflexivity |]. split; [exact Hpath |]. split; [exact Hquiet |].
  split; [exact Hputs |]. exists id. exact Hsent.
Defined.

Lemma X26_witness :
  Settings.quiet 1000 [Settings.Wait 400] = true
  ∧ forallb (λ ev, negb (Settings.isEdit ev)) [Settings.Wait 5000; Settings.Fire 1] = true
  ∧ Settings.puts
      (Settings.run (Some "/p")
         (Settings.Edit "npm ci"
          :: [Settings.Wait 400] ++ Settings.Unmount
          :: [Settings.Wait 5000; Settings.Fire 1])
         Settings.mounted)
    = [].
Proof.
  split; [reflexivity |]. split; [reflexivity |].
  exact (X26_unmounting_within_a_second_discards_the_change (Some "/p") []
           [Settings.Wait 400] [Settings.Wait 5000; Settings.Fire 1] "npm ci"
           eq_refl eq_refl).
Defined.
